(** * AITravelAgent: the tool adapters and the tool-calling loop

    A shallow embedding of [travelagent.py]: the weather and air-quality
    adapters ([get_weather_forecast], [get_air_quality]) and the manual
    tool-calling loop ([run_agent_with_tools]), followed by the properties
    the specification states about them. *)

From Stdlib Require Import ZArith String List Floats DecimalString.
From Stdlib Require DecimalPos DecimalZ.
From stdpp Require Import gmap strings list.

Local Open Scope string_scope.
Local Open Scope list_scope.
Local Open Scope Z_scope.

(** ** Values handed to [json.dumps]

    Every adapter ends in [json.dumps(result)] where [result] is a dict
    with string keys, built in a fixed order.  The dict is kept as an
    association list in insertion order; the serialisation itself is the
    library's and is not part of the embedding. *)

Inductive PyValue : Type :=
| PyStr (s : string)
| PyInt (z : Z)
| PyFloat (f : float).

Definition Payload : Type := list (string * PyValue).

(** [result["key"]] on such a dict. *)
Fixpoint dict_get (key : string) (d : Payload) : option PyValue :=
  match d with
  | [] => None
  | (k, v) :: rest => if String.eqb k key then Some v else dict_get key rest
  end.

(** [{"error": msg}] *)
Definition error_payload (msg : string) : Payload := [("error", PyStr msg)].

Definition is_error (d : Payload) : bool :=
  match dict_get "error" d with Some _ => true | None => false end.

(** The outcome of a call: its value, or an exception travelling up the
    Python stack, named by its class. *)
Inductive result (A : Type) : Type :=
| Ok (a : A)
| Raise (e : string).
Arguments Ok {A} _.
Arguments Raise {A} _.

(** ** Upstream responses

    What an adapter sees of a [requests] response: [response.status_code]
    and what [response.json()] gives, the parsed document or, for a body
    that is not a JSON document, the [JSONDecodeError] it raises.  The
    document is typed by the fields the code reads: a field read with
    [d["k"]] is a record field, a field read with [d.get("k", default)] is
    an [option].  Temperatures and wind speed are doubles (an integer in the
    document stands for the double of the same value); the date parts, the
    precipitation percentage and the AQI value are integers. *)

Record Response (D : Type) : Type := mkResponse {
  status_code : Z;
  json : result D
}.
Arguments mkResponse {D} _ _.
Arguments status_code {D} _.
Arguments json {D} _.

(** [day["displayDate"]]: integers [year], [month], [day]. *)
Record DisplayDate : Type := mkDate {
  year : Z;
  month : Z;
  day : Z
}.

(** [day["daytimeForecast"]], with the three leaves the code reads. *)
Record DaytimeForecast : Type := mkDaytime {
  weatherCondition_description_text : string;
  precipitation_probability_percent : Z;
  wind_speed_value : float
}.

(** One element of [data["forecastDays"]]. *)
Record ForecastDay : Type := mkDay {
  displayDate : DisplayDate;
  daytimeForecast : DaytimeForecast;
  maxTemperature_degrees : float;
  minTemperature_degrees : float;
  feelsLikeMaxTemperature_degrees : float;
  feelsLikeMinTemperature_degrees : float
}.

Record WeatherData : Type := mkWeather {
  forecastDays : option (list ForecastDay)
}.

(** One element of [data["indexes"]]; both fields are read with [.get]. *)
Record AqiIndex : Type := mkIndex {
  aqi : option Z;
  category : option string
}.

Record AirData : Type := mkAir {
  indexes : option (list AqiIndex)
}.

(** ** Formatting *)

(** [str(n)] for a Python int. *)
Definition py_str_int (n : Z) : string := NilZero.string_of_int (Z.to_int n).

(** [f"{n:02d}"]: decimal, zero-padded to width two (the sign counts). *)
Definition format_02d (n : Z) : string :=
  if (0 <=? n) && (n <? 10) then "0" +:+ py_str_int n else py_str_int n.

(** [f"{d['year']}-{d['month']:02d}-{d['day']:02d}"] *)
Definition forecast_date_of (d : DisplayDate) : string :=
  py_str_int (year d) +:+ "-" +:+ format_02d (month d) +:+ "-" +:+ format_02d (day d).

(** ** get_weather_forecast *)

(** [avg_temp = (max_temp + min_temp) / 2], in double precision. *)
Definition avg_temp_of (max_temp min_temp : float) : float :=
  PrimFloat.div (PrimFloat.add max_temp min_temp) 2%float.

(** The [if avg_temp < 0 ... elif ... else] chain on the average. *)
Definition tier_clothing (avg_temp : float) : string :=
  if PrimFloat.ltb avg_temp 0%float then "heavy winter coat, thermal layers, gloves, hat"
  else if PrimFloat.ltb avg_temp 10%float then "warm jacket and sweater"
  else if PrimFloat.ltb avg_temp 20%float then "light jacket or cardigan"
  else "t-shirt and light clothing".

(** The [clothing += ...] chain on the precipitation probability. *)
Definition precip_addition (precip_prob : Z) : string :=
  if 50 <? precip_prob then ", waterproof jacket"
  else if 30 <? precip_prob then ", carry an umbrella"
  else "".

(** ["Yes" if precip_prob > 30 else "No"] *)
Definition umbrella_needed_of (precip_prob : Z) : string :=
  if 30 <? precip_prob then "Yes" else "No".

(** The body of the [if forecast_date == date:] branch. *)
Definition matched_day_result (fday : ForecastDay) (forecast_date : string) : Payload :=
  let daytime := daytimeForecast fday in
  let max_temp := maxTemperature_degrees fday in
  let min_temp := minTemperature_degrees fday in
  let precip_prob := precipitation_probability_percent daytime in
  let avg_temp := avg_temp_of max_temp min_temp in
  let clothing := tier_clothing avg_temp in
  let clothing := clothing +:+ precip_addition precip_prob in
  [ ("date", PyStr forecast_date);
    ("condition", PyStr (weatherCondition_description_text daytime));
    ("max_temp_c", PyFloat max_temp);
    ("min_temp_c", PyFloat min_temp);
    ("feels_like_max_c", PyFloat (feelsLikeMaxTemperature_degrees fday));
    ("feels_like_min_c", PyFloat (feelsLikeMinTemperature_degrees fday));
    ("precipitation_probability", PyInt precip_prob);
    ("wind_kph", PyFloat (wind_speed_value daytime));
    ("umbrella_needed", PyStr (umbrella_needed_of precip_prob));
    ("clothing_recommendation", PyStr clothing) ].

Definition no_forecast_payload (date : string) : Payload :=
  error_payload ("No forecast for " +:+ date +:+ ". Only next 4 days available.").

(** The [for day in data.get("forecastDays", [])] loop: the first day whose
    formatted date equals [date] returns; falling off the end returns the
    "no forecast" payload. *)
Fixpoint scan_forecast_days (date : string) (days : list ForecastDay) : Payload :=
  match days with
  | [] => no_forecast_payload date
  | fday :: rest =>
      let forecast_date := forecast_date_of (displayDate fday) in
      if String.eqb forecast_date date
      then matched_day_result fday forecast_date
      else scan_forecast_days date rest
  end.

(** ** get_air_quality: the part after the request *)

Definition air_quality_result (index0 : AqiIndex) : Payload :=
  let aqi_value := default 0 (aqi index0) in
  let aqi_category := default "Unknown" (category index0) in
  let mask_needed := if 100 <? aqi_value then "Yes" else "No" in
  [ ("aqi", PyInt aqi_value);
    ("category", PyStr aqi_category);
    ("mask_needed", PyStr mask_needed) ].

Section Adapters.

(** The two outbound calls: [requests.get] on the forecast endpoint with
    [days = 4], and [requests.post] on the current-conditions endpoint. *)
Variable weather_endpoint : float -> float -> Response WeatherData.
Variable air_quality_endpoint : float -> float -> Response AirData.

Definition get_weather_forecast (latitude longitude : float) (date : string)
  : result Payload :=
  let response := weather_endpoint latitude longitude in
  match json response with
  | Raise e => Raise e
  | Ok data =>
      if negb (status_code response =? 200)
      then Ok (error_payload "Failed to fetch weather data")
      else Ok (scan_forecast_days date (default [] (forecastDays data)))
  end.

Definition get_air_quality (latitude longitude : float) : result Payload :=
  let response := air_quality_endpoint latitude longitude in
  match json response with
  | Raise e => Raise e
  | Ok data =>
      if negb (status_code response =? 200)
      then Ok (error_payload "Failed to fetch air quality")
      else
        let indexes := default [] (indexes data) in
        match indexes with
        | [] => Ok (error_payload "No air quality data available")
        | index0 :: _ => Ok (air_quality_result index0)
        end
  end.

End Adapters.

(** ** Messages and the tool-calling loop *)

(** What [print] writes in the loop. *)
Inductive Output (Args : Type) : Type :=
| CallingTool (tool_name : string) (tool_args : Args)
| ToolNotFound (tool_name : string).
Arguments CallingTool {Args} _ _.
Arguments ToolNotFound {Args} _.

Section Loop.

(** [Args] is the type of a request's argument dict.  [World] is
    everything outside the process that a model or adapter invocation
    can read or change (the hosted model, the upstream APIs). *)
Context {Args World : Type}.

(** One entry of [response.tool_calls]. *)
Record ToolCall : Type := mkToolCall {
  tc_name : string;
  tc_args : Args;
  tc_id : string
}.

(** The assistant turn returned by [llm_with_tools.invoke]. *)
Record AIResponse : Type := mkAI {
  ai_content : string;
  tool_calls : list ToolCall
}.

Inductive Message : Type :=
| SystemMessage (content : string)
| HumanMessage (content : string)
| AIMessage (response : AIResponse)
| ToolMessage (content : string) (tool_call_id : string).

(** [llm_with_tools.invoke(messages)]: an assistant turn or an exception. *)
Definition Model : Type := World -> list Message -> World * result AIResponse.

(** [tool.invoke(tool_args)]: the adapter's string or an exception. *)
Definition Tool : Type := Args -> World -> World * result string.

(** The mutable state the loop works on: the [messages] list (one object,
    appended to in place), what was printed, and the outside world.
    [llm_calls] is a ghost counter of model invocations. *)
Record State : Type := mkState {
  messages : list Message;
  stdout : list (Output Args);
  world : World;
  llm_calls : nat
}.

Definition append_message (m : Message) (st : State) : State :=
  mkState (messages st ++ [m]) (stdout st) (world st) (llm_calls st).

Definition print (o : Output Args) (st : State) : State :=
  mkState (messages st) (stdout st ++ [o]) (world st) (llm_calls st).

Definition set_world (w : World) (st : State) : State :=
  mkState (messages st) (stdout st) w (llm_calls st).

Definition count_llm_call (st : State) : State :=
  mkState (messages st) (stdout st) (world st) (S (llm_calls st)).

Variable llm_with_tools : Model.
Variable tool_map : gmap string Tool.

(** The body of [for tool_call in response.tool_calls]. *)
Definition exec_tool_call (tool_call : ToolCall) (st : State) : State * result unit :=
  let tool_name := tc_name tool_call in
  let tool_args := tc_args tool_call in
  let st := print (CallingTool tool_name tool_args) st in
  match tool_map !! tool_name with
  | Some tool =>
      match tool tool_args (world st) with
      | (w, Ok tool_result) =>
          (append_message (ToolMessage tool_result (tc_id tool_call)) (set_world w st), Ok tt)
      | (w, Raise e) => (set_world w st, Raise e)
      end
  | None => (print (ToolNotFound tool_name) st, Ok tt)
  end.

(** The [for] loop itself: requests in order, stopping at an exception. *)
Fixpoint exec_tool_calls (calls : list ToolCall) (st : State) : State * result unit :=
  match calls with
  | [] => (st, Ok tt)
  | tool_call :: rest =>
      match exec_tool_call tool_call st with
      | (st', Ok _) => exec_tool_calls rest st'
      | (st', Raise e) => (st', Raise e)
      end
  end.

Inductive Flow : Type := Continue | Break.

(** The body of the [while] loop after [iteration += 1]. *)
Definition loop_body (st : State) : State * result Flow :=
  match llm_with_tools (world st) (messages st) with
  | (w, Raise e) => (count_llm_call (set_world w st), Raise e)
  | (w, Ok response) =>
      let st := append_message (AIMessage response) (count_llm_call (set_world w st)) in
      match tool_calls response with
      | [] => (st, Ok Break)
      | _ :: _ =>
          match exec_tool_calls (tool_calls response) st with
          | (st', Ok _) => (st', Ok Continue)
          | (st', Raise e) => (st', Raise e)
          end
      end
  end.

Variable max_iterations : Z.

(** [while iteration < max_iterations].  The recursion is on [fuel];
    [None] means the fuel ran out before the loop ended. *)
Fixpoint while_loop (fuel : nat) (iteration : Z) (st : State)
  : option (State * result unit) :=
  if iteration <? max_iterations then
    match fuel with
    | O => None
    | S fuel =>
        let iteration := iteration + 1 in
        match loop_body st with
        | (st', Ok Continue) => while_loop fuel iteration st'
        | (st', Ok Break) => Some (st', Ok tt)
        | (st', Raise e) => Some (st', Raise e)
        end
    end
  else Some (st, Ok tt).

End Loop.

Arguments ToolCall : clear implicits.
Arguments AIResponse : clear implicits.
Arguments Message : clear implicits.
Arguments State : clear implicits.
Arguments Model : clear implicits.
Arguments Tool : clear implicits.

(** [run_agent_with_tools(llm_with_tools, tool_map, messages, max_iterations)],
    started in world [w]: the final state, and either the returned list (the
    [messages] object itself) or the exception that left the function.  The
    loop is given [max_iterations] units of fuel. *)
Definition run_agent_with_tools {Args World : Type}
  (llm_with_tools : Model Args World) (tool_map : gmap string (Tool Args World))
  (messages0 : list (Message Args)) (max_iterations : Z) (w : World)
  : option (State Args World * result (list (Message Args))) :=
  let iteration := 0 in
  match while_loop llm_with_tools tool_map max_iterations
          (Z.to_nat max_iterations) iteration (mkState messages0 [] w O) with
  | Some (st, Ok _) => Some (st, Ok (messages st))
  | Some (st, Raise e) => Some (st, Raise e)
  | None => None
  end.

(** [max_iterations=15] *)
Definition default_max_iterations : Z := 15.


(** ** Auxiliary definitions used in the statements *)

(** [first_match date pre fday]: the loop reaches [fday] (no earlier day
    has the requested date) and [fday] has it. *)
Definition first_match (date : string) (pre : list ForecastDay) (fday : ForecastDay) : Prop :=
  Forall (fun d => forecast_date_of (displayDate d) <> date) pre /\
  forecast_date_of (displayDate fday) = date.

(** A stub forecast day, as a test double of the weather endpoint would
    return it: display date, maximum and minimum temperature, and daytime
    precipitation probability. *)
Definition stub_day (d : DisplayDate) (max_temp min_temp : float) (precip : Z) : ForecastDay :=
  mkDay d (mkDaytime "Cloudy" precip 12%float) max_temp min_temp max_temp min_temp.

(** Four days starting 2026-02-16, the horizon of a request made that day. *)
Definition stub_days : list ForecastDay :=
  [ stub_day (mkDate 2026 2 16) 12%float 8%float 65;
    stub_day (mkDate 2026 2 17) 21%float 19%float 40;
    stub_day (mkDate 2026 2 18) 3%float (-5)%float 10;
    stub_day (mkDate 2026 2 19) 25%float 15%float 55 ].

Definition stub_weather_endpoint (_ _ : float) : Response WeatherData :=
  mkResponse 200 (Ok (mkWeather (Some stub_days))).




(** A day whose maximum (25) and average (10) fall in different tiers. *)
Definition stub_wide_day : ForecastDay :=
  stub_day (mkDate 2026 2 20) 25%float (-5)%float 65.

Definition stub_wide_endpoint (_ _ : float) : Response WeatherData :=
  mkResponse 200 (Ok (mkWeather (Some [stub_wide_day]))).

Definition stub_air_endpoint (index0 : AqiIndex) (_ _ : float) : Response AirData :=
  mkResponse 200 (Ok (mkAir (Some [index0]))).



(** [tool_name in tool_map] *)
Definition is_registered {Args World : Type}
  (tool_map : gmap string (Tool Args World)) (tool_call : ToolCall Args) : bool :=
  match tool_map !! tc_name tool_call with Some _ => true | None => false end.

(** The requests of a turn that the loop dispatches to an adapter. *)
Definition registered_requests {Args World : Type}
  (tool_map : gmap string (Tool Args World)) (calls : list (ToolCall Args))
  : list (ToolCall Args) :=
  List.filter (is_registered tool_map) calls.

(** A model whose invocation always yields an assistant turn. *)
Definition model_never_raises {Args World : Type} (llm : Model Args World) : Prop :=
  forall w msgs, exists w' response, llm w msgs = (w', Ok response).

(** A registry whose adapters always yield a payload. *)
Definition tools_never_raise {Args World : Type}
  (tool_map : gmap string (Tool Args World)) : Prop :=
  forall tool_name tool tool_args w,
    tool_map !! tool_name = Some tool ->
    exists w' tool_result, tool tool_args w = (w', Ok tool_result).

Definition is_tool_message {Args : Type} (m : Message Args) : bool :=
  match m with ToolMessage _ _ => true | _ => false end.

(** Test doubles for the loop: requests without arguments, a world without
    state.  [stub_model calls] asks for [calls] until the conversation ends
    in a tool result, then answers. *)
Definition stub_call (tool_name tool_call_id : string) : ToolCall unit :=
  mkToolCall tool_name tt tool_call_id.

Definition stub_model (calls : list (ToolCall unit)) : Model unit unit :=
  fun w msgs =>
    match last msgs with
    | Some (ToolMessage _ _) => (w, Ok (mkAI "Here is your plan." []))
    | _ => (w, Ok (mkAI "" calls))
    end.

Definition stub_tool_returning (tool_result : string) : Tool unit unit :=
  fun _ w => (w, Ok tool_result).

Definition stub_tool_raising (e : string) : Tool unit unit :=
  fun _ w => (w, Raise e).

Definition stub_tool_map : gmap string (Tool unit unit) :=
  <["get_air_quality" := stub_tool_returning "{aqi: 42}"]>
    (<["get_weather_forecast" := stub_tool_returning "{condition: Cloudy}"]> ∅).

Definition stub_failing_tool_map : gmap string (Tool unit unit) :=
  <["get_place_details" := stub_tool_raising "KeyError"]> stub_tool_map.

Definition stub_messages : list (Message unit) :=
  [ SystemMessage "You are an AI travel planning assistant.";
    HumanMessage "City1: Paris 2026-02-16" ].

(** ** get_place_details *)

(** One element of [data["results"]] of the place-search document. *)
Record Place : Type := mkPlace {
  name : string;
  formatted_address : string;
  geometry_location_lat : float;
  geometry_location_lng : float
}.

Record PlacesData : Type := mkPlaces {
  results : option (list Place)
}.

Section PlaceAdapter.

(** [requests.get] on the text-search endpoint with [query]. *)
Variable places_endpoint : string -> Response PlacesData.

Definition get_place_details (place_name city : string) : result Payload :=
  let query := place_name +:+ ", " +:+ city in
  let response := places_endpoint query in
  match json response with
  | Raise e => Raise e
  | Ok data =>
      match results data with
      | None | Some [] => Ok (error_payload ("No results found for '" +:+ query +:+ "'"))
      | Some (place :: _) =>
          Ok [ ("name", PyStr (name place));
               ("address", PyStr (formatted_address place));
               ("latitude", PyFloat (geometry_location_lat place));
               ("longitude", PyFloat (geometry_location_lng place)) ]
      end
  end.

End PlaceAdapter.

(** ** Credentials at import time *)

(** [os.getenv(key)] on the environment left by [load_dotenv()]. *)
Definition getenv (environ : gmap string string) (key : string) : option string :=
  environ !! key.

(** [not value] for a value that is [None] or a string. *)
Definition py_not (value : option string) : bool :=
  match value with
  | None => true
  | Some s => String.eqb s ""
  end.

(** The two [if not ...: raise ValueError(...)] checks, in order; on
    success the two keys. *)
Definition load_api_keys (environ : gmap string string) : result (string * string) :=
  let GOOGLE_API_KEY := getenv environ "GOOGLE_API_KEY" in
  let GROQ_API_KEY := getenv environ "GROQ_API_KEY" in
  if py_not GOOGLE_API_KEY then Raise "ValueError: GOOGLE_API_KEY not found in .env file"
  else if py_not GROQ_API_KEY then Raise "ValueError: GROQ_API_KEY not found in .env file"
  else Ok (default "" GOOGLE_API_KEY, default "" GROQ_API_KEY).

(** ** create_travel_agent *)

(** [{tool.name: tool for tool in tools}]: one insertion per tool, in list
    order, a later tool replacing an earlier one of the same name. *)
Definition dict_of_tools {Args World : Type} (tools : list (string * Tool Args World))
  : gmap string (Tool Args World) :=
  foldl (fun tool_map tool => <[tool.1 := tool.2]> tool_map) ∅ tools.

(** [create_travel_agent]: [llm_with_tools] stands for [llm.bind_tools(tools)]
    on the hosted model; the three tools carry the names of the decorated
    functions. *)
Definition create_travel_agent {Args World : Type}
  (llm_with_tools : Model Args World)
  (place_tool weather_tool air_tool : Tool Args World)
  : Model Args World * gmap string (Tool Args World) :=
  let tools := [ ("get_place_details", place_tool);
                 ("get_weather_forecast", weather_tool);
                 ("get_air_quality", air_tool) ] in
  let tool_map := dict_of_tools tools in
  (llm_with_tools, tool_map).

(** ** main *)

(** [message.content] *)
Definition content {Args : Type} (m : Message Args) : string :=
  match m with
  | SystemMessage c => c
  | HumanMessage c => c
  | AIMessage response => ai_content response
  | ToolMessage c _ => c
  end.

(** [messages[-1].content] *)
Definition last_content {Args : Type} (msgs : list (Message Args)) : result string :=
  match last msgs with
  | Some m => Ok (content m)
  | None => Raise "IndexError"
  end.

(** The newline character, and [s * n]. *)
Definition nl : string := String (Ascii.ascii_of_nat 10) EmptyString.

Fixpoint str_repeat (s : string) (n : nat) : string :=
  match n with
  | O => ""
  | S n => s +:+ str_repeat s n
  end.

(** What [main] writes: its own [print] calls, the prompt of [input], and
    what the tool-calling loop prints. *)
Inductive MainOutput (Args : Type) : Type :=
| Printed (line : string)
| Prompted (prompt : string)
| LoopPrinted (o : Output Args).
Arguments Printed {Args} _.
Arguments Prompted {Args} _.
Arguments LoopPrinted {Args} _.

(** The state [main] works on: the one [messages] list, the output so far
    and the outside world; [session_llm_calls] is a ghost counter of model
    invocations. *)
Record Session (Args World : Type) : Type := mkSession {
  session_messages : list (Message Args);
  session_stdout : list (MainOutput Args);
  session_world : World;
  session_llm_calls : nat
}.
Arguments mkSession {Args World} _ _ _ _.
Arguments session_messages {Args World} _.
Arguments session_stdout {Args World} _.
Arguments session_world {Args World} _.
Arguments session_llm_calls {Args World} _.

(** [user_input.lower() in {"q", "quit", "exit"}], on the lowered string. *)
Definition is_quit_word (lowered : string) : bool :=
  String.eqb lowered "q" || String.eqb lowered "quit" || String.eqb lowered "exit".

Section Main.

Context {Args World : Type}.

(** What [create_travel_agent()] returned. *)
Variable llm_with_tools : Model Args World.
Variable tool_map : gmap string (Tool Args World).

(** [str.strip] and [str.lower]. *)
Variable strip : string -> string.
Variable lower : string -> string.

Definition session_print (o : MainOutput Args) (s : Session Args World) : Session Args World :=
  mkSession (session_messages s) (session_stdout s ++ [o]) (session_world s)
    (session_llm_calls s).

Definition session_append (m : Message Args) (s : Session Args World) : Session Args World :=
  mkSession (session_messages s ++ [m]) (session_stdout s) (session_world s)
    (session_llm_calls s).

(** [messages = run_agent_with_tools(llm_with_tools, tool_map, messages)]:
    the list is extended in place, also when the call ends in an exception. *)
Definition session_run_agent (s : Session Args World)
  : option (Session Args World * result unit) :=
  match run_agent_with_tools llm_with_tools tool_map (session_messages s)
          default_max_iterations (session_world s) with
  | Some (st, r) =>
      let s' := mkSession (messages st)
                  (session_stdout s ++ List.map LoopPrinted (stdout st))
                  (world st) (session_llm_calls s + llm_calls st) in
      match r with
      | Ok _ => Some (s', Ok tt)
      | Raise e => Some (s', Raise e)
      end
  | None => None
  end.

(** The [while True] loop of [main], reading the lines [stdin] holds;
    [input] raises [EOFError] when none is left. *)
Fixpoint follow_up_loop (stdin : list string) (s : Session Args World)
  : option (Session Args World * result unit) :=
  match stdin with
  | [] => Some (session_print (Prompted (nl +:+ "SataM: ")) s, Raise "EOFError")
  | line :: stdin =>
      let s := session_print (Prompted (nl +:+ "SataM: ")) s in
      let user_input := strip line in
      if is_quit_word (lower user_input) then
        Some (session_print (Printed (nl +:+ "Thank you! Have a wonderful trip!")) s, Ok tt)
      else if String.eqb user_input "" then follow_up_loop stdin s
      else
        let s := session_append (HumanMessage user_input) s in
        match session_run_agent s with
        | Some (s, Ok _) =>
            match last_content (session_messages s) with
            | Ok answer =>
                follow_up_loop stdin (session_print (Printed (nl +:+ "Agent: " +:+ answer)) s)
            | Raise e => Some (s, Raise e)
            end
        | Some (s, Raise e) => Some (s, Raise e)
        | None => None
        end
  end.

(** [main], with the two prompt texts as parameters. *)
Definition main (system_message travel_input : string) (stdin : list string) (w : World)
  : option (Session Args World * result unit) :=
  let s := mkSession [] [] w O in
  let s := session_print (Printed (str_repeat "=" 80)) s in
  let s := session_print (Printed "AI Travel Planning Agent (LangChain 1.2.7)") s in
  let s := session_print (Printed (str_repeat "=" 80)) s in
  let s := session_print (Printed "") s in
  let s := session_print (Printed "TRAVEL REQUEST:") s in
  let s := session_print (Printed travel_input) s in
  let s := session_print (Printed (nl +:+ str_repeat "=" 80 +:+ nl)) s in
  let s := session_append (SystemMessage system_message) s in
  let s := session_append (HumanMessage travel_input) s in
  match session_run_agent s with
  | Some (s, Ok _) =>
      match last_content (session_messages s) with
      | Ok final_message =>
          let s := session_print (Printed (nl +:+ "TRAVEL PLAN:")) s in
          let s := session_print (Printed final_message) s in
          let s := session_print (Printed (nl +:+ str_repeat "=" 80 +:+ nl)) s in
          let s := session_print (Printed "Ask follow-up questions (type 'quit' to exit):") s in
          let s := session_print (Printed (str_repeat "-" 80)) s in
          follow_up_loop stdin s
      | Raise e => Some (s, Raise e)
      end
  | Some (s, Raise e) => Some (s, Raise e)
  | None => None
  end.

End Main.

(** ** Further auxiliary definitions *)

(** A message that ends a run normally: an assistant turn without requests. *)
Definition is_final_answer {Args : Type} (m : Message Args) : bool :=
  match m with
  | AIMessage response => match tool_calls response with [] => true | _ => false end
  | _ => false
  end.

(** A model that asks for at least one tool on every turn. *)
Definition model_always_requests {Args World : Type} (llm : Model Args World) : Prop :=
  forall w msgs, exists w' response,
    llm w msgs = (w', Ok response) /\ tool_calls response <> [].

(** What one request makes the loop print. *)
Definition request_output {Args World : Type}
  (tool_map : gmap string (Tool Args World)) (tool_call : ToolCall Args) : list (Output Args) :=
  CallingTool (tc_name tool_call) (tc_args tool_call)
  :: (if is_registered tool_map tool_call then [] else [ToolNotFound (tc_name tool_call)]).

(** A session outcome without what was printed: the conversation, the
    world, the number of model invocations, and how the session ended. *)
Definition outcome_core {Args World : Type}
  (outcome : option (Session Args World * result unit))
  : option (list (Message Args) * World * nat * result unit) :=
  match outcome with
  | Some (s, r) => Some (session_messages s, session_world s, session_llm_calls s, r)
  | None => None
  end.

(** Lines as a test would feed them: already stripped, already lower case. *)
Definition stub_strip (line : string) : string := line.
Definition stub_lower (line : string) : string := line.

(** The lines of the session that reach the agent: not blank once stripped. *)
Definition asks_agent (strip : string -> string) (line : string) : bool :=
  negb (String.eqb (strip line) "").

(** A display date the calendar can hold: month 1 to 12, day 1 to 31. *)
Definition calendar_date (d : DisplayDate) : Prop :=
  1 <= month d <= 12 /\ 1 <= day d <= 31.

Definition stub_place : Place :=
  mkPlace "Eiffel Tower" "Av. Gustave Eiffel, 75007 Paris, France" 48.875%float 2.375%float.

Definition stub_places_endpoint (query : string) : Response PlacesData :=
  if String.eqb query "Eiffel Tower, Paris"
  then mkResponse 200 (Ok (mkPlaces (Some [stub_place])))
  else mkResponse 200 (Ok (mkPlaces (Some []))).

Definition stub_environ : gmap string string :=
  <["GOOGLE_API_KEY" := "g-key"]> (<["GROQ_API_KEY" := "q-key"]> ∅).

(** * Properties of the adapters *)

(** ** Double-precision comparisons against the tier bounds *)

Lemma SFcompare_antisym (a b : spec_float) :
  SFcompare b a = match SFcompare a b with Some c => Some (CompOpp c) | None => None end.
Proof.
  destruct a as [sa|sa| |sa ma ea], b as [sb|sb| |sb mb eb]; simpl; try reflexivity;
    try (destruct sa; reflexivity); try (destruct sb; reflexivity);
    try (destruct sa, sb; reflexivity).
  destruct sa, sb; simpl; try reflexivity;
    rewrite (Z.compare_antisym ea eb); destruct (Z.compare ea eb); simpl; try reflexivity;
    rewrite (Pos.compare_cont_antisym _ _ Eq); simpl;
    destruct (Pos.compare_cont Eq ma mb); reflexivity.
Qed.

(** [x <= y] excludes [y < x] (also when one side is NaN: then neither holds). *)
Lemma leb_not_ltb (x y : float) :
  PrimFloat.leb x y = true -> PrimFloat.ltb y x = false.
Proof.
  rewrite leb_spec, ltb_spec. unfold SFleb, SFltb.
  rewrite (SFcompare_antisym (Prim2SF x) (Prim2SF y)).
  destruct (SFcompare (Prim2SF x) (Prim2SF y)) as [[]|]; simpl; congruence.
Qed.

Lemma ltb_0_10 (x : float) :
  PrimFloat.ltb x 0%float = true -> PrimFloat.ltb x 10%float = true.
Proof.
  rewrite !ltb_spec.
  change (Prim2SF 0) with (S754_zero false).
  change (Prim2SF 10) with (S754_finite false 5629499534213120 (-49)).
  unfold SFltb, SFcompare.
  destruct (Prim2SF x) as [s|s| |s m e]; try destruct s; congruence.
Qed.

Lemma ltb_10_20 (x : float) :
  PrimFloat.ltb x 10%float = true -> PrimFloat.ltb x 20%float = true.
Proof.
  rewrite !ltb_spec.
  change (Prim2SF 10) with (S754_finite false 5629499534213120 (-49)).
  change (Prim2SF 20) with (S754_finite false 5629499534213120 (-48)).
  unfold SFltb, SFcompare.
  destruct (Prim2SF x) as [s|s| |s m e]; try destruct s; try congruence.
  destruct (Z.compare e (-49)) eqn:E1; destruct (Z.compare e (-48)) eqn:E2; try congruence;
    try (apply Z.compare_eq in E1); try (apply Z.compare_eq in E2);
    rewrite ?Z.compare_lt_iff, ?Z.compare_gt_iff in *; try lia.
Qed.

(** ** The four tiers as a function of the computed average *)

Lemma tier_clothing_below_0 (avg_temp : float) :
  PrimFloat.ltb avg_temp 0%float = true ->
  tier_clothing avg_temp = "heavy winter coat, thermal layers, gloves, hat".
Proof. intros H. unfold tier_clothing. rewrite H. reflexivity. Qed.

Lemma tier_clothing_0_10 (avg_temp : float) :
  PrimFloat.leb 0%float avg_temp = true -> PrimFloat.ltb avg_temp 10%float = true ->
  tier_clothing avg_temp = "warm jacket and sweater".
Proof.
  intros H0 H10. unfold tier_clothing.
  rewrite (leb_not_ltb _ _ H0), H10. reflexivity.
Qed.

Lemma tier_clothing_10_20 (avg_temp : float) :
  PrimFloat.leb 10%float avg_temp = true -> PrimFloat.ltb avg_temp 20%float = true ->
  tier_clothing avg_temp = "light jacket or cardigan".
Proof.
  intros H10 H20. unfold tier_clothing.
  pose proof (leb_not_ltb _ _ H10) as N10.
  destruct (PrimFloat.ltb avg_temp 0%float) eqn:N0.
  - apply ltb_0_10 in N0. congruence.
  - rewrite N10, H20. reflexivity.
Qed.

Lemma tier_clothing_from_20 (avg_temp : float) :
  PrimFloat.leb 20%float avg_temp = true ->
  tier_clothing avg_temp = "t-shirt and light clothing".
Proof.
  intros H20. unfold tier_clothing.
  pose proof (leb_not_ltb _ _ H20) as N20.
  destruct (PrimFloat.ltb avg_temp 10%float) eqn:N10.
  - apply ltb_10_20 in N10. congruence.
  - destruct (PrimFloat.ltb avg_temp 0%float) eqn:N0.
    + apply ltb_0_10 in N0. congruence.
    + rewrite N20. reflexivity.
Qed.

Lemma tier_clothing_four (avg_temp : float) :
  In (tier_clothing avg_temp)
     [ "heavy winter coat, thermal layers, gloves, hat";
       "warm jacket and sweater";
       "light jacket or cardigan";
       "t-shirt and light clothing" ].
Proof.
  unfold tier_clothing.
  destruct (PrimFloat.ltb avg_temp 0%float); [simpl; tauto|].
  destruct (PrimFloat.ltb avg_temp 10%float); [simpl; tauto|].
  destruct (PrimFloat.ltb avg_temp 20%float); simpl; tauto.
Qed.

(** ** The scan over the forecast days *)


Lemma scan_forecast_days_match (date : string) (pre post : list ForecastDay) (fday : ForecastDay) :
  first_match date pre fday ->
  scan_forecast_days date (pre ++ fday :: post) = matched_day_result fday date.
Proof.
  intros [Hpre Hday]. induction Hpre as [|d pre Hd _ IH]; simpl.
  - rewrite Hday, String.eqb_refl. reflexivity.
  - destruct (String.eqb_spec (forecast_date_of (displayDate d)) date); [contradiction|exact IH].
Qed.

Lemma scan_forecast_days_cases (date : string) (days : list ForecastDay) :
  (Forall (fun d => forecast_date_of (displayDate d) <> date) days /\
   scan_forecast_days date days = no_forecast_payload date) \/
  (exists pre fday post, days = pre ++ fday :: post /\ first_match date pre fday /\
   scan_forecast_days date days = matched_day_result fday date).
Proof.
  induction days as [|d days IH]; simpl.
  - left. split; [constructor|reflexivity].
  - destruct (String.eqb_spec (forecast_date_of (displayDate d)) date) as [E|N].
    + right. exists [], d, days. subst date.
      split; [reflexivity|]. split; [split; [constructor|reflexivity]|reflexivity].
    + destruct IH as [[Hall Hs]|(pre & fday & post & -> & [Hpre Hday] & Hs)].
      * left. split; [constructor; assumption|exact Hs].
      * right. exists (d :: pre), fday, post.
        split; [reflexivity|]. split; [|exact Hs].
        split; [constructor; assumption|exact Hday].
Qed.

Lemma get_weather_forecast_matched
  (weather_endpoint : float -> float -> Response WeatherData)
  (latitude longitude : float) (date : string) (data : WeatherData)
  (pre post : list ForecastDay) (fday : ForecastDay) :
  json (weather_endpoint latitude longitude) = Ok data ->
  status_code (weather_endpoint latitude longitude) = 200 ->
  forecastDays data = Some (pre ++ fday :: post) ->
  first_match date pre fday ->
  get_weather_forecast weather_endpoint latitude longitude date
  = Ok (matched_day_result fday date).
Proof.
  intros Hj Hs Hd Hm. unfold get_weather_forecast. rewrite Hj, Hs, Hd. simpl.
  f_equal. apply scan_forecast_days_match. exact Hm.
Qed.

(** ** Clothing tiers *)

(** C4: for a matched forecast day the clothing recommendation starts with
    one of exactly four tiers, chosen from the average [(max + min) / 2] of
    the day's maximum and minimum temperature with strict upper bounds:
    below 0 the heavy winter gear, from 0 and below 10 the warm jacket, from
    10 and below 20 the light jacket, from 20 the light clothing; an average
    of exactly 10.0 gives "light jacket or cardigan" (so do a maximum of 25
    and a minimum of -5) and one of exactly 20.0 gives "t-shirt and light
    clothing" (so do a maximum of 35 and a minimum of 5). *)
Theorem clothing_tier_of_matched_day
  (weather_endpoint : float -> float -> Response WeatherData)
  (latitude longitude : float) (date : string) (data : WeatherData)
  (pre post : list ForecastDay) (fday : ForecastDay) :
  json (weather_endpoint latitude longitude) = Ok data ->
  status_code (weather_endpoint latitude longitude) = 200 ->
  forecastDays data = Some (pre ++ fday :: post) ->
  first_match date pre fday ->
  let max_temp := maxTemperature_degrees fday in
  let min_temp := minTemperature_degrees fday in
  let avg_temp := PrimFloat.div (PrimFloat.add max_temp min_temp) 2%float in
  let precip_prob := precipitation_probability_percent (daytimeForecast fday) in
  exists (result : Payload) (tier : string),
    get_weather_forecast weather_endpoint latitude longitude date = Ok result /\
    dict_get "clothing_recommendation" result
      = Some (PyStr (tier +:+ precip_addition precip_prob)) /\
    In tier [ "heavy winter coat, thermal layers, gloves, hat";
              "warm jacket and sweater";
              "light jacket or cardigan";
              "t-shirt and light clothing" ] /\
    (PrimFloat.ltb avg_temp 0%float = true ->
       tier = "heavy winter coat, thermal layers, gloves, hat") /\
    (PrimFloat.leb 0%float avg_temp = true -> PrimFloat.ltb avg_temp 10%float = true ->
       tier = "warm jacket and sweater") /\
    (PrimFloat.leb 10%float avg_temp = true -> PrimFloat.ltb avg_temp 20%float = true ->
       tier = "light jacket or cardigan") /\
    (PrimFloat.leb 20%float avg_temp = true ->
       tier = "t-shirt and light clothing") /\
    (avg_temp = 10%float -> tier = "light jacket or cardigan") /\
    (avg_temp = 20%float -> tier = "t-shirt and light clothing") /\
    (max_temp = 25%float -> min_temp = (-5)%float -> tier = "light jacket or cardigan") /\
    (max_temp = 35%float -> min_temp = 5%float -> tier = "t-shirt and light clothing") /\
    (max_temp = 3%float -> min_temp = (-5)%float ->
       tier = "heavy winter coat, thermal layers, gloves, hat") /\
    (max_temp = 15%float -> min_temp = 1%float -> tier = "warm jacket and sweater").
Proof.
  intros Hj Hs Hd Hm max_temp min_temp avg_temp precip_prob.
  exists (matched_day_result fday date), (tier_clothing avg_temp).
  split; [exact (get_weather_forecast_matched _ _ _ _ _ _ _ _ Hj Hs Hd Hm)|].
  split; [reflexivity|].
  split; [apply tier_clothing_four|].
  split; [apply tier_clothing_below_0|].
  split; [apply tier_clothing_0_10|].
  split; [apply tier_clothing_10_20|].
  split; [apply tier_clothing_from_20|].
  split; [intros ->; reflexivity|].
  split; [intros ->; reflexivity|].
  unfold avg_temp.
  repeat split; intros -> ->; reflexivity.
Qed.

Lemma clothing_tier_of_matched_day_witness :
  exists result : Payload,
    get_weather_forecast stub_wide_endpoint 48.875%float 2.375%float "2026-02-20"
    = Ok result /\
    dict_get "clothing_recommendation" result
    = Some (PyStr "light jacket or cardigan, waterproof jacket").
Proof.
  destruct (clothing_tier_of_matched_day stub_wide_endpoint 48.875%float 2.375%float
              "2026-02-20" (mkWeather (Some [stub_wide_day])) [] [] stub_wide_day
              eq_refl eq_refl eq_refl (conj (List.Forall_nil _) eq_refl))
    as (result & tier & Hrun & Hget & _ & _ & _ & _ & _ & _ & _ & Hwide & _).
  exists result. split; [exact Hrun|].
  rewrite Hget, (Hwide eq_refl eq_refl). reflexivity.
Defined.

(** ** Precipitation advice *)

Lemma precip_addition_waterproof (p : Z) :
  precip_addition p = ", waterproof jacket" <-> 50 < p.
Proof.
  unfold precip_addition.
  destruct (Z.ltb_spec 50 p); [tauto|].
  destruct (Z.ltb_spec 30 p); split; (discriminate || lia).
Qed.

Lemma precip_addition_umbrella (p : Z) :
  precip_addition p = ", carry an umbrella" <-> 30 < p /\ ~ 50 < p.
Proof.
  unfold precip_addition.
  destruct (Z.ltb_spec 50 p); [split; [discriminate|lia]|].
  destruct (Z.ltb_spec 30 p); split; try discriminate; try lia. reflexivity.
Qed.

Lemma precip_addition_nothing (p : Z) :
  precip_addition p = "" <-> ~ 30 < p.
Proof.
  unfold precip_addition.
  destruct (Z.ltb_spec 50 p); [split; [discriminate|lia]|].
  destruct (Z.ltb_spec 30 p); split; try discriminate; try lia. reflexivity.
Qed.

Lemma umbrella_needed_yes (p : Z) :
  umbrella_needed_of p = "Yes" <-> 30 < p.
Proof.
  unfold umbrella_needed_of.
  destruct (Z.ltb_spec 30 p); split; try discriminate; try lia. reflexivity.
Qed.

(** C5: for a matched forecast day the waterproof-jacket addition is
    appended to the clothing string exactly when the precipitation
    probability exceeds 50, the umbrella suggestion exactly when it exceeds
    30 but not 50 (and nothing otherwise), and [umbrella_needed] is "Yes"
    exactly when it exceeds 30; a probability of 65 gives "Yes" and the
    waterproof-jacket addition. *)
Theorem precipitation_advice_of_matched_day
  (weather_endpoint : float -> float -> Response WeatherData)
  (latitude longitude : float) (date : string) (data : WeatherData)
  (pre post : list ForecastDay) (fday : ForecastDay) :
  json (weather_endpoint latitude longitude) = Ok data ->
  status_code (weather_endpoint latitude longitude) = 200 ->
  forecastDays data = Some (pre ++ fday :: post) ->
  first_match date pre fday ->
  let avg_temp := avg_temp_of (maxTemperature_degrees fday) (minTemperature_degrees fday) in
  let precip_prob := precipitation_probability_percent (daytimeForecast fday) in
  exists (result : Payload) (addition umbrella_needed : string),
    get_weather_forecast weather_endpoint latitude longitude date = Ok result /\
    dict_get "clothing_recommendation" result
      = Some (PyStr (tier_clothing avg_temp +:+ addition)) /\
    dict_get "umbrella_needed" result = Some (PyStr umbrella_needed) /\
    (addition = ", waterproof jacket" <-> 50 < precip_prob) /\
    (addition = ", carry an umbrella" <-> 30 < precip_prob /\ ~ 50 < precip_prob) /\
    (addition = "" <-> ~ 30 < precip_prob) /\
    (umbrella_needed = "Yes" <-> 30 < precip_prob) /\
    (umbrella_needed = "No" <-> ~ 30 < precip_prob) /\
    (precip_prob = 65 -> umbrella_needed = "Yes" /\ addition = ", waterproof jacket").
Proof.
  intros Hj Hs Hd Hm avg_temp precip_prob.
  exists (matched_day_result fday date),
    (precip_addition precip_prob), (umbrella_needed_of precip_prob).
  split; [exact (get_weather_forecast_matched _ _ _ _ _ _ _ _ Hj Hs Hd Hm)|].
  split; [reflexivity|]. split; [reflexivity|].
  split; [apply precip_addition_waterproof|].
  split; [apply precip_addition_umbrella|].
  split; [apply precip_addition_nothing|].
  split; [apply umbrella_needed_yes|].
  split.
  - unfold umbrella_needed_of.
    destruct (Z.ltb_spec 30 precip_prob); split; try discriminate; try lia. reflexivity.
  - intros ->. split; reflexivity.
Qed.

Lemma precipitation_advice_of_matched_day_witness :
  exists result : Payload,
    get_weather_forecast stub_weather_endpoint 48.875%float 2.375%float "2026-02-16"
    = Ok result /\
    dict_get "umbrella_needed" result = Some (PyStr "Yes") /\
    dict_get "clothing_recommendation" result
      = Some (PyStr "light jacket or cardigan, waterproof jacket").
Proof.
  destruct (precipitation_advice_of_matched_day stub_weather_endpoint 48.875%float 2.375%float
              "2026-02-16" (mkWeather (Some stub_days)) [] (tl stub_days)
              (stub_day (mkDate 2026 2 16) 12%float 8%float 65)
              eq_refl eq_refl eq_refl (conj (List.Forall_nil _) eq_refl))
    as (result & addition & umbrella & Hrun & Hc & Hu & _ & _ & _ & _ & _ & H65).
  destruct (H65 eq_refl) as [-> ->].
  exists result. split; [exact Hrun|]. split; [exact Hu|exact Hc].
Defined.

(** ** Dates outside the fetched days, and failed upstream calls *)

Lemma matched_day_result_not_error (fday : ForecastDay) (forecast_date : string) :
  is_error (matched_day_result fday forecast_date) = false.
Proof. reflexivity. Qed.




(** ** Air quality *)




(** C10: on a status-200 response whose first index has no ["aqi"] field,
    [get_air_quality] does not fail: the AQI value defaults to 0, a missing
    category to "Unknown", and the result is a success payload with
    [mask_needed] "No". *)
Theorem air_quality_missing_aqi
  (air_quality_endpoint : float -> float -> Response AirData)
  (latitude longitude : float) (data : AirData)
  (index0 : AqiIndex) (rest : list AqiIndex) :
  let response := air_quality_endpoint latitude longitude in
  json response = Ok data ->
  status_code response = 200 ->
  indexes data = Some (index0 :: rest) ->
  aqi index0 = None ->
  exists result : Payload,
    get_air_quality air_quality_endpoint latitude longitude = Ok result /\
    result = [ ("aqi", PyInt 0);
               ("category", PyStr (default "Unknown" (category index0)));
               ("mask_needed", PyStr "No") ] /\
    (category index0 = None -> dict_get "category" result = Some (PyStr "Unknown")) /\
    dict_get "mask_needed" result = Some (PyStr "No") /\
    is_error result = false.
Proof.
  intros response Hj Hs Hidx Haqi.
  eexists. split.
  - unfold get_air_quality. fold response.
    rewrite Hj, Hs, Hidx. simpl. unfold air_quality_result. rewrite Haqi. reflexivity.
  - simpl. split; [reflexivity|]. split; [|split; reflexivity].
    intros ->. reflexivity.
Qed.

Lemma air_quality_missing_aqi_witness :
  get_air_quality (stub_air_endpoint (mkIndex None None)) 48.875%float 2.375%float
    = Ok [ ("aqi", PyInt 0); ("category", PyStr "Unknown"); ("mask_needed", PyStr "No") ].
Proof.
  destruct (air_quality_missing_aqi (stub_air_endpoint (mkIndex None None))
              48.875%float 2.375%float (mkAir (Some [mkIndex None None]))
              (mkIndex None None) [] eq_refl eq_refl eq_refl eq_refl)
    as (result & Hrun & Hres & _).
  rewrite Hrun, Hres. reflexivity.
Defined.

(** * Properties of the tool-calling loop *)

Section LoopFacts.

Context {Args World : Type}.
Variable llm_with_tools : Model Args World.
Variable tool_map : gmap string (Tool Args World).

(** ** One request *)

Lemma exec_tool_call_unregistered (tool_call : ToolCall Args) (st : State Args World) :
  tool_map !! tc_name tool_call = None ->
  exec_tool_call tool_map tool_call st
  = (print (ToolNotFound (tc_name tool_call))
       (print (CallingTool (tc_name tool_call) (tc_args tool_call)) st), Ok tt).
Proof. intros H. unfold exec_tool_call, Tool in *. cbv zeta. rewrite H. reflexivity. Qed.

Lemma exec_tool_call_returns (tool_call : ToolCall Args) (st : State Args World)
  (tool : Tool Args World) (w : World) (tool_result : string) :
  tool_map !! tc_name tool_call = Some tool ->
  tool (tc_args tool_call) (world st) = (w, Ok tool_result) ->
  exec_tool_call tool_map tool_call st
  = (append_message (ToolMessage tool_result (tc_id tool_call))
       (set_world w (print (CallingTool (tc_name tool_call) (tc_args tool_call)) st)), Ok tt).
Proof. intros H Ht. unfold exec_tool_call, Tool in *. cbv zeta. rewrite H. simpl in *. rewrite Ht. reflexivity. Qed.

Lemma exec_tool_call_raises (tool_call : ToolCall Args) (st : State Args World)
  (tool : Tool Args World) (w : World) (e : string) :
  tool_map !! tc_name tool_call = Some tool ->
  tool (tc_args tool_call) (world st) = (w, Raise e) ->
  exec_tool_call tool_map tool_call st
  = (set_world w (print (CallingTool (tc_name tool_call) (tc_args tool_call)) st), Raise e).
Proof. intros H Ht. unfold exec_tool_call, Tool in *. cbv zeta. rewrite H. simpl in *. rewrite Ht. reflexivity. Qed.

(** The three ways a request can go. *)
Lemma exec_tool_call_cases (tool_call : ToolCall Args) (st : State Args World) :
  let st0 := print (CallingTool (tc_name tool_call) (tc_args tool_call)) st in
  (is_registered tool_map tool_call = false /\
   exec_tool_call tool_map tool_call st
   = (print (ToolNotFound (tc_name tool_call)) st0, Ok tt)) \/
  (is_registered tool_map tool_call = true /\ exists w tool_result,
   exec_tool_call tool_map tool_call st
   = (append_message (ToolMessage tool_result (tc_id tool_call)) (set_world w st0), Ok tt)) \/
  (is_registered tool_map tool_call = true /\ exists w e,
   exec_tool_call tool_map tool_call st = (set_world w st0, Raise e)).
Proof.
  intros st0. unfold is_registered, Tool in *.
  destruct (tool_map !! tc_name tool_call) as [tool|] eqn:Hlook.
  - destruct (tool (tc_args tool_call) (world st)) as [w [tool_result|e]] eqn:Ht.
    + right. left. split; [reflexivity|]. exists w, tool_result.
      eapply exec_tool_call_returns; eassumption.
    + right. right. split; [reflexivity|]. exists w, e.
      eapply exec_tool_call_raises; eassumption.
  - left. split; [reflexivity|]. apply exec_tool_call_unregistered. exact Hlook.
Qed.

Lemma exec_tool_call_grows (tool_call : ToolCall Args) (st st' : State Args World)
  (r : result unit) :
  exec_tool_call tool_map tool_call st = (st', r) ->
  messages st `prefix_of` messages st' /\ llm_calls st' = llm_calls st.
Proof.
  intros H.
  destruct (exec_tool_call_cases tool_call st)
    as [[_ E]|[[_ (w & s & E)]|[_ (w & e & E)]]];
    rewrite E in H; inversion H; subst; simpl; split; try reflexivity.
  apply prefix_app_r. reflexivity.
Qed.

(** ** The requests of one turn *)

Lemma exec_tool_calls_grows (calls : list (ToolCall Args)) (st st' : State Args World)
  (r : result unit) :
  exec_tool_calls tool_map calls st = (st', r) ->
  messages st `prefix_of` messages st' /\ llm_calls st' = llm_calls st.
Proof.
  revert st. induction calls as [|tool_call rest IH]; simpl; intros st H.
  - inversion H; subst. split; reflexivity.
  - destruct (exec_tool_call tool_map tool_call st) as [st1 [u|e]] eqn:E1.
    + apply exec_tool_call_grows in E1 as [P1 C1]. apply IH in H as [P2 C2].
      split; [etransitivity; eassumption|congruence].
    + inversion H; subst. eapply exec_tool_call_grows; eassumption.
Qed.

(** A turn that runs to its end appends one tool result per registered
    request, in order, each with the identifier of its request. *)
Lemma exec_tool_calls_completed (calls : list (ToolCall Args)) (st st' : State Args World)
  (u : unit) :
  exec_tool_calls tool_map calls st = (st', Ok u) ->
  exists contents : list string,
    length contents = length (registered_requests tool_map calls) /\
    messages st'
    = messages st
      ++ zip_with ToolMessage contents (List.map tc_id (registered_requests tool_map calls)).
Proof.
  revert st. induction calls as [|tool_call rest IH]; simpl; intros st H.
  - inversion H; subst. exists []. split; [reflexivity|]. simpl. rewrite app_nil_r. reflexivity.
  - destruct (exec_tool_call_cases tool_call st)
      as [[Hreg E]|[[Hreg (w & s & E)]|[Hreg (w & e & E)]]];
      rewrite E in H; unfold registered_requests; simpl; rewrite Hreg.
    + apply IH in H as (contents & Hlen & Hmsg). exists contents. split; assumption.
    + apply IH in H as (contents & Hlen & Hmsg). exists (s :: contents).
      split; [simpl; f_equal; exact Hlen|].
      rewrite Hmsg. simpl. rewrite <- app_assoc. reflexivity.
    + discriminate H.
Qed.


Lemma exec_tool_calls_no_raise (calls : list (ToolCall Args)) (st : State Args World) :
  tools_never_raise tool_map ->
  exists st', exec_tool_calls tool_map calls st = (st', Ok tt).
Proof.
  intros Htools. revert st. induction calls as [|tool_call rest IH]; simpl; intros st.
  - exists st. reflexivity.
  - unfold exec_tool_call, Tool in *. cbv zeta.
    destruct (tool_map !! tc_name tool_call) as [tool|] eqn:Hlook.
    + destruct (Htools _ _ (tc_args tool_call)
                  (world (print (CallingTool (tc_name tool_call) (tc_args tool_call)) st)) Hlook)
        as (w & s & Ht).
      rewrite Ht. apply IH.
    + apply IH.
Qed.


(** ** One iteration *)

Lemma loop_body_grows (st st' : State Args World) (r : result Flow) :
  loop_body llm_with_tools tool_map st = (st', r) ->
  messages st `prefix_of` messages st' /\ llm_calls st' = S (llm_calls st).
Proof.
  unfold loop_body. intros H.
  destruct (llm_with_tools (world st) (messages st)) as [w [response|e]].
  - destruct (tool_calls response) as [|c rest] eqn:Hcalls.
    + inversion H; subst. simpl. split; [apply prefix_app_r; reflexivity|reflexivity].
    + destruct (exec_tool_calls tool_map (c :: rest) _) as [st1 r1] eqn:E.
      apply exec_tool_calls_grows in E as [P C]. simpl in P, C.
      assert (st' = st1) as -> by (destruct r1; inversion H; reflexivity).
      split; [|exact C].
      etransitivity; [|exact P]. apply prefix_app_r. reflexivity.
  - inversion H; subst. simpl. split; reflexivity.
Qed.

(** An iteration that runs to its end appends the assistant message and,
    after it, one tool result per registered request of that message. *)
Lemma loop_body_completed (st st' : State Args World) (flow : Flow) :
  loop_body llm_with_tools tool_map st = (st', Ok flow) ->
  exists (w : World) (response : AIResponse Args) (contents : list string),
    llm_with_tools (world st) (messages st) = (w, Ok response) /\
    length contents = length (registered_requests tool_map (tool_calls response)) /\
    messages st'
    = messages st
      ++ AIMessage response
         :: zip_with ToolMessage contents
              (List.map tc_id (registered_requests tool_map (tool_calls response))) /\
    (flow = Break <-> tool_calls response = []).
Proof.
  unfold loop_body. intros H.
  destruct (llm_with_tools (world st) (messages st)) as [w [response|e]]; [|discriminate H].
  exists w, response.
  destruct (tool_calls response) as [|c rest] eqn:Hcalls.
  - inversion H; subst. exists []. simpl. repeat split; reflexivity.
  - destruct (exec_tool_calls tool_map (c :: rest) _) as [st1 [u|e]] eqn:E; [|discriminate H].
    inversion H; subst.
    apply exec_tool_calls_completed in E as (contents & Hlen & Hmsg).
    exists contents. split; [reflexivity|]. split; [exact Hlen|].
    split; [|split; discriminate].
    rewrite Hmsg. simpl. rewrite <- app_assoc. reflexivity.
Qed.

Lemma loop_body_no_raise (st : State Args World) :
  model_never_raises llm_with_tools -> tools_never_raise tool_map ->
  exists st' flow, loop_body llm_with_tools tool_map st = (st', Ok flow).
Proof.
  intros Hllm Htools. unfold loop_body.
  destruct (Hllm (world st) (messages st)) as (w & response & ->).
  destruct (tool_calls response) as [|c rest]; [eauto|].
  destruct (exec_tool_calls_no_raise (c :: rest)
              (append_message (AIMessage response) (count_llm_call (set_world w st))) Htools)
    as (st' & ->).
  eauto.
Qed.

(** ** The whole loop *)

Section While.

Variable max_iterations : Z.

Lemma while_loop_enough_fuel (fuel : nat) (iteration : Z) (st : State Args World) :
  (Z.to_nat (max_iterations - iteration) <= fuel)%nat ->
  exists st' r, while_loop llm_with_tools tool_map max_iterations fuel iteration st = Some (st', r).
Proof.
  revert iteration st. induction fuel as [|fuel IH]; intros iteration st Hfuel; simpl.
  - destruct (Z.ltb_spec iteration max_iterations) as [Hlt'|Hge']; [lia|eauto].
  - destruct (Z.ltb_spec iteration max_iterations) as [Hlt'|Hge']; [|eauto].
    destruct (loop_body llm_with_tools tool_map st) as [st1 [[|]|e]]; eauto.
    apply IH. lia.
Qed.

Lemma while_loop_grows (fuel : nat) (iteration : Z) (st st' : State Args World)
  (r : result unit) :
  while_loop llm_with_tools tool_map max_iterations fuel iteration st = Some (st', r) ->
  messages st `prefix_of` messages st' /\
  (llm_calls st' <= llm_calls st + Z.to_nat (max_iterations - iteration))%nat.
Proof.
  revert iteration st. induction fuel as [|fuel IH]; intros iteration st; simpl.
  - destruct (Z.ltb_spec iteration max_iterations) as [Hlt'|Hge']; [discriminate|].
    intros H; inversion H; subst. split; [reflexivity|lia].
  - destruct (Z.ltb_spec iteration max_iterations) as [Hlt'|Hge'].
    + destruct (loop_body llm_with_tools tool_map st) as [st1 r1] eqn:E.
      apply loop_body_grows in E as [P C].
      destruct r1 as [[|]|e]; intros H.
      * apply IH in H as [P' C']. split; [etransitivity; eassumption|lia].
      * inversion H; subst. split; [exact P|lia].
      * inversion H; subst. split; [exact P|lia].
    + intros H; inversion H; subst. split; [reflexivity|lia].
Qed.

Lemma while_loop_strict (fuel : nat) (iteration : Z) (st st' : State Args World) (u : unit) :
  iteration < max_iterations ->
  while_loop llm_with_tools tool_map max_iterations fuel iteration st = Some (st', Ok u) ->
  (length (messages st) < length (messages st'))%nat.
Proof.
  intros Hlt. destruct fuel as [|fuel]; simpl;
    destruct (Z.ltb_spec iteration max_iterations) as [Hlt'|Hge']; try lia; [discriminate|].
  destruct (loop_body llm_with_tools tool_map st) as [st1 [flow|e]] eqn:E; [|discriminate].
  apply loop_body_completed in E as (w & response & contents & _ & _ & Hmsg & _).
  assert (Hone : (length (messages st) < length (messages st1))%nat).
  { rewrite Hmsg, length_app. simpl. lia. }
  destruct flow; intros H.
  - apply while_loop_grows in H as [P _]. apply prefix_length in P. lia.
  - inversion H; subst. exact Hone.
Qed.

Lemma while_loop_no_raise (fuel : nat) (iteration : Z) (st st' : State Args World)
  (r : result unit) :
  model_never_raises llm_with_tools -> tools_never_raise tool_map ->
  while_loop llm_with_tools tool_map max_iterations fuel iteration st = Some (st', r) ->
  r = Ok tt.
Proof.
  intros Hllm Htools. revert iteration st.
  induction fuel as [|fuel IH]; intros iteration st; simpl;
    destruct (Z.ltb_spec iteration max_iterations) as [Hlt'|Hge']; try discriminate;
    try (intros H; inversion H; reflexivity).
  destruct (loop_body_no_raise st Hllm Htools) as (st1 & flow & ->).
  destruct flow; [apply IH|intros H; inversion H; reflexivity].
Qed.

End While.

End LoopFacts.

(** ** Tool results and the requests they answer *)

Lemma zip_tool_messages_ids {Args : Type} (contents : list string) (calls : list (ToolCall Args)) :
  length contents = length calls ->
  Forall2 (fun (m : Message Args) tool_call => exists content, m = ToolMessage content (tc_id tool_call))
          (zip_with ToolMessage contents (List.map tc_id calls)) calls.
Proof.
  revert calls. induction contents as [|c contents IH]; intros [|tool_call calls] Hlen;
    simpl in *; try discriminate; constructor.
  - exists c. reflexivity.
  - apply IH. congruence.
Qed.




Lemma registered_requests_app {Args World : Type}
  (tool_map : gmap string (Tool Args World)) (l k : list (ToolCall Args)) :
  registered_requests tool_map (l ++ k)
  = registered_requests tool_map l ++ registered_requests tool_map k.
Proof. unfold registered_requests. apply List.filter_app. Qed.

(** Whatever way a turn ends, the tool results it appended answer, in
    order, the registered requests among those it dispatched: all requests
    when it ran to its end, those before the raising one otherwise. *)
Lemma exec_tool_calls_dispatched {Args World : Type}
  (tool_map : gmap string (Tool Args World)) (calls : list (ToolCall Args))
  (st st' : State Args World) (r : result unit) :
  exec_tool_calls tool_map calls st = (st', r) ->
  exists (dispatched : list (ToolCall Args)) (contents : list string),
    length contents = length (registered_requests tool_map dispatched) /\
    messages st'
    = messages st
      ++ zip_with ToolMessage contents
           (List.map tc_id (registered_requests tool_map dispatched)) /\
    (forall u, r = Ok u -> dispatched = calls) /\
    (forall e, r = Raise e ->
       exists tool_call rest,
         calls = dispatched ++ tool_call :: rest /\
         is_registered tool_map tool_call = true).
Proof.
  revert st. induction calls as [|tool_call rest IH]; simpl; intros st H.
  - inversion H; subst. exists [], []. simpl. rewrite app_nil_r.
    repeat split; try reflexivity. intros e E; discriminate E.
  - destruct (exec_tool_call_cases tool_map tool_call st)
      as [[Hreg E]|[[Hreg (w & s & E)]|[Hreg (w & e & E)]]]; rewrite E in H.
    + apply IH in H as (dispatched & contents & Hlen & Hmsg & Hok & Hraise).
      exists (tool_call :: dispatched), contents.
      unfold registered_requests in *. simpl. rewrite Hreg.
      split; [exact Hlen|]. split; [exact Hmsg|]. split.
      * intros u Hu. f_equal. eapply Hok. exact Hu.
      * intros e He. destruct (Hraise e He) as (tc & rest' & -> & Htc).
        exists tc, rest'. split; [reflexivity|exact Htc].
    + apply IH in H as (dispatched & contents & Hlen & Hmsg & Hok & Hraise).
      exists (tool_call :: dispatched), (s :: contents).
      unfold registered_requests in *. simpl. rewrite Hreg. simpl.
      split; [f_equal; exact Hlen|].
      split; [rewrite Hmsg; simpl; rewrite <- app_assoc; reflexivity|]. split.
      * intros u Hu. f_equal. eapply Hok. exact Hu.
      * intros e' He. destruct (Hraise e' He) as (tc & rest' & -> & Htc).
        exists tc, rest'. split; [reflexivity|exact Htc].
    + inversion H; subst. exists [], []. simpl. rewrite app_nil_r.
      split; [reflexivity|]. split; [reflexivity|]. split; [intros u E'; discriminate E'|].
      intros e' _. exists tool_call, rest. split; [reflexivity|exact Hreg].
Qed.

(** C2 as the specification states it fails: in an iteration whose second
    adapter raises, one tool result is appended although the assistant
    message carries two requests whose tool name is registered. *)
Lemma raising_adapter_iteration_appends_fewer :
  exists st' : State unit unit,
    loop_body
      (stub_model [stub_call "get_air_quality" "call_1"; stub_call "get_place_details" "call_2"])
      stub_failing_tool_map (mkState stub_messages [] tt O)
    = (st', Raise "KeyError") /\
    messages st'
    = stub_messages
      ++ [ AIMessage (mkAI "" [ stub_call "get_air_quality" "call_1";
                                stub_call "get_place_details" "call_2" ]);
           ToolMessage "{aqi: 42}" "call_1" ] /\
    length (registered_requests stub_failing_tool_map
              [stub_call "get_air_quality" "call_1"; stub_call "get_place_details" "call_2"])
    = 2%nat.
Proof. eexists. split; [reflexivity|]. split; reflexivity. Qed.

(** C2, amended: in every iteration in which the model answers, the
    messages appended after the assistant message are tool results that
    answer, in order, the registered requests the loop dispatched, each with
    the identifier of its request.  When the iteration runs to its end all
    requests were dispatched, so the number of tool results equals the number
    of requests of the assistant message whose tool name is in the registry;
    when an adapter raises the iteration stops at that request and fewer tool
    results are appended. *)
Theorem tool_results_match_dispatched_requests {Args World : Type}
  (llm_with_tools : Model Args World) (tool_map : gmap string (Tool Args World))
  (st st' : State Args World) (r : result Flow) (w : World) (response : AIResponse Args) :
  llm_with_tools (world st) (messages st) = (w, Ok response) ->
  loop_body llm_with_tools tool_map st = (st', r) ->
  exists (dispatched : list (ToolCall Args)) (tool_results : list (Message Args)),
    messages st' = messages st ++ AIMessage response :: tool_results /\
    length tool_results = length (registered_requests tool_map dispatched) /\
    Forall2 (fun m tool_call => exists content, m = ToolMessage content (tc_id tool_call))
            tool_results (registered_requests tool_map dispatched) /\
    (forall flow, r = Ok flow ->
       dispatched = tool_calls response /\
       length tool_results = length (registered_requests tool_map (tool_calls response))) /\
    (forall e, r = Raise e ->
       (exists tool_call rest,
          tool_calls response = dispatched ++ tool_call :: rest /\
          is_registered tool_map tool_call = true) /\
       (length tool_results
        < length (registered_requests tool_map (tool_calls response)))%nat).
Proof.
  unfold loop_body. intros -> H.
  assert (Hturn : exists st1 r1,
             exec_tool_calls tool_map (tool_calls response)
               (append_message (AIMessage response) (count_llm_call (set_world w st)))
             = (st1, r1) /\ st' = st1 /\
             (forall flow, r = Ok flow -> exists u, r1 = Ok u) /\
             (forall e, r = Raise e -> r1 = Raise e)).
  { destruct (tool_calls response) as [|c rest].
    - inversion H; subst. eexists _, _. split; [reflexivity|]. split; [reflexivity|].
      split; [eauto|discriminate].
    - destruct (exec_tool_calls tool_map (c :: rest) _) as [st1 [u|e]];
        inversion H; subst; eexists _, _; (split; [reflexivity|]); (split; [reflexivity|]);
        split; try discriminate; eauto. intros e' [= ->]. reflexivity. }
  destruct Hturn as (st1 & r1 & E & -> & Hok & Hraise).
  apply exec_tool_calls_dispatched in E
    as (dispatched & contents & Hlen & Hmsg & Hall & Hstop).
  simpl in Hmsg.
  pose proof (zip_tool_messages_ids contents _ Hlen) as HF.
  exists dispatched,
    (zip_with ToolMessage contents (List.map tc_id (registered_requests tool_map dispatched))).
  split; [rewrite Hmsg, <- app_assoc; reflexivity|].
  split; [apply Forall2_length in HF; exact HF|]. split; [exact HF|]. split.
  - intros flow Hflow. destruct (Hok flow Hflow) as [u Hu].
    rewrite (Hall u Hu) in *. split; [reflexivity|]. apply Forall2_length in HF. exact HF.
  - intros e He. destruct (Hstop e (Hraise e He)) as (tc & rest & Hsplit & Htc).
    split; [eauto|].
    apply Forall2_length in HF. rewrite HF, Hsplit, registered_requests_app, length_app.
    unfold registered_requests at 3. simpl. rewrite Htc. simpl. lia.
Qed.

Lemma tool_results_match_dispatched_requests_witness :
  exists (st' : State unit unit) (tool_results : list (Message unit)),
    loop_body (stub_model [stub_call "get_air_quality" "call_1"; stub_call "nope" "call_2"])
      stub_tool_map (mkState stub_messages [] tt O) = (st', Ok Continue) /\
    messages st'
    = stub_messages
      ++ AIMessage (mkAI "" [stub_call "get_air_quality" "call_1"; stub_call "nope" "call_2"])
         :: tool_results /\
    length tool_results = 1%nat.
Proof.
  eexists.
  destruct (tool_results_match_dispatched_requests
              (stub_model [stub_call "get_air_quality" "call_1"; stub_call "nope" "call_2"])
              stub_tool_map (mkState stub_messages [] tt O) _ (Ok Continue) tt _
              eq_refl eq_refl)
    as (dispatched & tool_results & Hmsg & _ & _ & Hok & _).
  exists tool_results. split; [reflexivity|].
  split; [exact Hmsg|]. destruct (Hok Continue eq_refl) as [_ Hlen]. exact Hlen.
Defined.



(** ** Adapter results and adapter exceptions *)




(** ** Termination and the iteration budget *)

Lemma stub_model_never_raises (calls : list (ToolCall unit)) :
  model_never_raises (stub_model calls).
Proof.
  intros w msgs. unfold stub_model.
  destruct (last msgs) as [[]|]; eauto.
Qed.

Lemma stub_tool_map_never_raises : tools_never_raise stub_tool_map.
Proof.
  intros tool_name tool tool_args w. unfold stub_tool_map, Tool in *.
  destruct (decide (tool_name = "get_air_quality")) as [->|N1].
  - rewrite lookup_insert_eq. intros [= <-]. eexists _, _. reflexivity.
  - rewrite lookup_insert_ne by congruence.
    destruct (decide (tool_name = "get_weather_forecast")) as [->|N2].
    + rewrite lookup_insert_eq. intros [= <-]. eexists _, _. reflexivity.
    + rewrite lookup_insert_ne by congruence. rewrite lookup_empty. discriminate.
Qed.




(** ** The conversation only grows *)

(** C9 as the specification states it fails: with an iteration budget of
    0 the loop body never runs and the returned sequence is the input
    sequence itself, not a longer one. *)
Lemma zero_budget_returns_input_unchanged :
  run_agent_with_tools (stub_model [stub_call "get_air_quality" "call_1"])
    stub_tool_map stub_messages 0 tt
  = Some (mkState stub_messages [] tt O, Ok stub_messages) /\
  ~ (length stub_messages < length stub_messages)%nat.
Proof. split; [vm_compute; reflexivity|lia]. Qed.

Lemma loop_body_appends_assistant {Args World : Type}
  (llm_with_tools : Model Args World) (tool_map : gmap string (Tool Args World))
  (st st' : State Args World) (r : result Flow) (w : World) (response : AIResponse Args) :
  llm_with_tools (world st) (messages st) = (w, Ok response) ->
  loop_body llm_with_tools tool_map st = (st', r) ->
  exists rest, messages st' = messages st ++ AIMessage response :: rest.
Proof.
  unfold loop_body. intros -> H.
  destruct (tool_calls response) as [|c calls].
  - inversion H; subst. exists []. reflexivity.
  - destruct (exec_tool_calls tool_map (c :: calls) _) as [st1 r1] eqn:E.
    apply exec_tool_calls_grows in E as [[rest P] _]. simpl in P.
    assert (st' = st1) as -> by (destruct r1; inversion H; reflexivity).
    exists rest. rewrite P, <- app_assoc. reflexivity.
Qed.

(** C9, amended: the conversation is append-only.  Whatever the run, the
    input sequence is a prefix of the final sequence, and a returned
    sequence is strictly longer when [max_iterations >= 1] (with a budget
    below 1 it is the input, unchanged); every iteration in which the model
    answers appends at least the assistant message, so the length strictly
    increases; and every step (a request, an iteration) keeps the messages
    present before it, unchanged and in place. *)
Theorem conversation_append_only {Args World : Type}
  (llm_with_tools : Model Args World) (tool_map : gmap string (Tool Args World))
  (messages0 : list (Message Args)) (max_iterations : Z) (w : World)
  (st : State Args World) (r : result (list (Message Args))) :
  run_agent_with_tools llm_with_tools tool_map messages0 max_iterations w = Some (st, r) ->
  messages0 `prefix_of` messages st /\
  (forall returned, r = Ok returned ->
     returned = messages st /\
     (1 <= max_iterations -> (length messages0 < length returned)%nat) /\
     (max_iterations < 1 -> returned = messages0)) /\
  (forall (st1 st2 : State Args World) (r1 : result Flow) w1 response,
     llm_with_tools (world st1) (messages st1) = (w1, Ok response) ->
     loop_body llm_with_tools tool_map st1 = (st2, r1) ->
     (exists rest, messages st2 = messages st1 ++ AIMessage response :: rest) /\
     (length (messages st1) < length (messages st2))%nat) /\
  (forall (st1 st2 : State Args World) (r1 : result Flow),
     loop_body llm_with_tools tool_map st1 = (st2, r1) ->
     messages st1 `prefix_of` messages st2) /\
  (forall tool_call (st1 st2 : State Args World) (r1 : result unit),
     exec_tool_call tool_map tool_call st1 = (st2, r1) ->
     messages st1 `prefix_of` messages st2).
Proof.
  unfold run_agent_with_tools. cbv zeta. intros Hrun.
  destruct (while_loop llm_with_tools tool_map max_iterations (Z.to_nat max_iterations) 0
              (mkState messages0 [] w O)) as [[st0 r0]|] eqn:Hw; [|discriminate Hrun].
  assert (st0 = st) as -> by (destruct r0; inversion Hrun; reflexivity).
  pose proof (while_loop_grows _ _ _ _ _ _ _ _ Hw) as [Hprefix _]. simpl in Hprefix.
  split; [exact Hprefix|]. split; [|split; [|split]].
  - intros returned ->. destruct r0 as [u|e]; [|discriminate Hrun].
    inversion Hrun as [Hret]. split; [reflexivity|]. split.
    + intros Hmax.
      assert (Hlt : 0 < max_iterations) by lia.
      exact (while_loop_strict llm_with_tools tool_map max_iterations _ 0 _ _ u Hlt Hw).
    + intros Hmax. replace (Z.to_nat max_iterations) with O in Hw by lia.
      simpl in Hw. destruct (Z.ltb_spec 0 max_iterations); [lia|].
      inversion Hw; subst. reflexivity.
  - intros st1 st2 r1 w1 response Hllm Hbody.
    destruct (loop_body_appends_assistant _ _ _ _ _ _ _ Hllm Hbody) as [rest Hmsg].
    split; [exists rest; exact Hmsg|].
    rewrite Hmsg, length_app. simpl. lia.
  - intros st1 st2 r1 Hbody. eapply loop_body_grows. exact Hbody.
  - intros tool_call st1 st2 r1 Hcall. eapply exec_tool_call_grows. exact Hcall.
Qed.

Lemma conversation_append_only_witness :
  exists st : State unit unit,
    run_agent_with_tools
      (stub_model [stub_call "get_air_quality" "call_1"; stub_call "nope" "call_2"])
      stub_tool_map stub_messages default_max_iterations tt
    = Some (st, Ok (messages st)) /\
    stub_messages `prefix_of` messages st /\
    (length stub_messages < length (messages st))%nat.
Proof.
  eexists.
  pose proof (conversation_append_only
                (stub_model [stub_call "get_air_quality" "call_1"; stub_call "nope" "call_2"])
                stub_tool_map stub_messages default_max_iterations tt _ _ eq_refl)
    as (Hprefix & Hret & _).
  split; [reflexivity|]. split; [exact Hprefix|].
  destruct (Hret _ eq_refl) as (_ & Hstrict & _).
  apply Hstrict. unfold default_max_iterations. lia.
Defined.

(** * Further properties of the adapters *)

(** ** get_place_details *)

(** X1: [get_place_details] asks for the query "place_name, city"; when the
    document has no results (no [results] key, or an empty list) it gives
    the error payload that quotes that query, otherwise the name, address
    and coordinates of the first result and nothing of the later ones.  The
    status code plays no part: two responses with the same document give the
    same payload. *)
Theorem place_details_first_result
  (places_endpoint : string -> Response PlacesData) (place_name city : string)
  (data : PlacesData) :
  let query := place_name +:+ ", " +:+ city in
  json (places_endpoint query) = Ok data ->
  exists result : Payload,
    get_place_details places_endpoint place_name city = Ok result /\
    (default [] (results data) = [] ->
       result = error_payload ("No results found for '" +:+ query +:+ "'")) /\
    (forall place rest, results data = Some (place :: rest) ->
       result = [ ("name", PyStr (name place));
                  ("address", PyStr (formatted_address place));
                  ("latitude", PyFloat (geometry_location_lat place));
                  ("longitude", PyFloat (geometry_location_lng place)) ]) /\
    (is_error result = true <-> default [] (results data) = []) /\
    (forall other_endpoint : string -> Response PlacesData,
       json (other_endpoint query) = Ok data ->
       get_place_details other_endpoint place_name city = Ok result).
Proof.
  intros query Hj. unfold get_place_details. fold query. rewrite Hj.
  destruct (results data) as [[|place rest]|] eqn:Hres; simpl;
    eexists; (split; [reflexivity|]).
  - split; [reflexivity|]. split; [intros p r E; discriminate E|].
    split; [split; reflexivity|]. intros other Ho; unfold get_place_details; fold query; rewrite Ho, Hres; reflexivity.
  - split; [intros E; discriminate E|].
    split; [intros p r [= <- <-]; reflexivity|].
    split; [split; intros E; discriminate E|]. intros other Ho; unfold get_place_details; fold query; rewrite Ho, Hres; reflexivity.
  - split; [reflexivity|]. split; [intros p r E; discriminate E|].
    split; [split; reflexivity|]. intros other Ho; unfold get_place_details; fold query; rewrite Ho, Hres; reflexivity.
Qed.

Lemma place_details_first_result_witness :
  get_place_details stub_places_endpoint "Eiffel Tower" "Paris"
    = Ok [ ("name", PyStr "Eiffel Tower");
           ("address", PyStr "Av. Gustave Eiffel, 75007 Paris, France");
           ("latitude", PyFloat 48.875%float);
           ("longitude", PyFloat 2.375%float) ] /\
  get_place_details stub_places_endpoint "Atonium" "Brussels"
    = Ok (error_payload "No results found for 'Atonium, Brussels'").
Proof.
  split.
  - destruct (place_details_first_result stub_places_endpoint "Eiffel Tower" "Paris"
                (mkPlaces (Some [stub_place])) eq_refl)
      as (result & Hrun & _ & Hfirst & _).
    rewrite Hrun. f_equal. exact (Hfirst stub_place [] eq_refl).
  - destruct (place_details_first_result stub_places_endpoint "Atonium" "Brussels"
                (mkPlaces (Some [])) eq_refl)
      as (result & Hrun & Hnone & _).
    rewrite Hrun. f_equal. exact (Hnone eq_refl).
Defined.

(** ** get_weather_forecast *)

Lemma append_empty_r (s : string) : s +:+ "" = s.
Proof.
  induction s as [|c s IH]; [reflexivity|].
  change (String c (s +:+ "") = String c s). f_equal. exact IH.
Qed.

(** X2: in the payload of a matched day the two pieces of rain advice agree:
    [umbrella_needed] is "Yes" and the clothing string is the tier followed
    by the waterproof-jacket or the umbrella addition, or it is "No" and the
    clothing string is the bare tier. *)
Theorem umbrella_flag_agrees_with_clothing
  (weather_endpoint : float -> float -> Response WeatherData)
  (latitude longitude : float) (date : string) (data : WeatherData)
  (pre post : list ForecastDay) (fday : ForecastDay) :
  json (weather_endpoint latitude longitude) = Ok data ->
  status_code (weather_endpoint latitude longitude) = 200 ->
  forecastDays data = Some (pre ++ fday :: post) ->
  first_match date pre fday ->
  let tier :=
    tier_clothing (avg_temp_of (maxTemperature_degrees fday) (minTemperature_degrees fday)) in
  exists result : Payload,
    get_weather_forecast weather_endpoint latitude longitude date = Ok result /\
    ((dict_get "umbrella_needed" result = Some (PyStr "Yes") /\
      (dict_get "clothing_recommendation" result
         = Some (PyStr (tier +:+ ", waterproof jacket")) \/
       dict_get "clothing_recommendation" result
         = Some (PyStr (tier +:+ ", carry an umbrella"))))
     \/
     (dict_get "umbrella_needed" result = Some (PyStr "No") /\
      dict_get "clothing_recommendation" result = Some (PyStr tier))).
Proof.
  intros Hj Hs Hd Hm tier.
  exists (matched_day_result fday date).
  split; [exact (get_weather_forecast_matched _ _ _ _ _ _ _ _ Hj Hs Hd Hm)|].
  unfold matched_day_result, umbrella_needed_of, precip_addition. cbv zeta.
  fold tier.
  set (p := precipitation_probability_percent (daytimeForecast fday)).
  destruct (Z.ltb_spec 30 p) as [H30|H30].
  - left. split; [reflexivity|].
    destruct (Z.ltb_spec 50 p); [left|right]; reflexivity.
  - right. destruct (Z.ltb_spec 50 p); [lia|].
    split; [reflexivity|]. simpl.
    rewrite append_empty_r. reflexivity.
Qed.

Lemma umbrella_flag_agrees_with_clothing_witness :
  exists result : Payload,
    get_weather_forecast stub_weather_endpoint 48.875%float 2.375%float "2026-02-18"
    = Ok result /\
    dict_get "umbrella_needed" result = Some (PyStr "No") /\
    dict_get "clothing_recommendation" result
      = Some (PyStr "heavy winter coat, thermal layers, gloves, hat").
Proof.
  destruct (umbrella_flag_agrees_with_clothing stub_weather_endpoint 48.875%float 2.375%float
              "2026-02-18" (mkWeather (Some stub_days)) (firstn 2 stub_days) (skipn 3 stub_days)
              (stub_day (mkDate 2026 2 18) 3%float (-5)%float 10) eq_refl eq_refl eq_refl)
    as (result & Hrun & [[Hyes _]|Hno]).
  - split; [|reflexivity].
    repeat constructor; intros H; vm_compute in H; discriminate H.
  - exfalso. vm_compute in Hrun. injection Hrun as <-. vm_compute in Hyes. discriminate Hyes.
  - exists result. split; [exact Hrun|exact Hno].
Defined.

(** ** Temperatures that are not numbers *)

Lemma SFcompare_refl_not_nan (a : spec_float) :
  SFcompare a a = Some Eq \/ a = S754_nan.
Proof.
  destruct a as [s|s| |s m e]; simpl; auto; left.
  - destruct s; reflexivity.
  - destruct s; rewrite (Z.compare_refl e), (Pos.compare_cont_refl m Eq); reflexivity.
Qed.

Lemma is_nan_ltb (x y : float) :
  PrimFloat.is_nan x = true -> PrimFloat.ltb x y = false.
Proof.
  unfold PrimFloat.is_nan. rewrite FloatAxioms.eqb_spec, ltb_spec. unfold SFeqb, SFltb.
  destruct (SFcompare_refl_not_nan (Prim2SF x)) as [->| ->]; [discriminate|reflexivity].
Qed.

(** X3: when the average of the two temperatures is not a number (the
    document may carry NaN or opposite infinities), none of the three
    comparisons holds and the matched day's clothing string starts with the
    light-clothing tier. *)
Theorem nan_average_gives_light_clothing
  (weather_endpoint : float -> float -> Response WeatherData)
  (latitude longitude : float) (date : string) (data : WeatherData)
  (pre post : list ForecastDay) (fday : ForecastDay) :
  json (weather_endpoint latitude longitude) = Ok data ->
  status_code (weather_endpoint latitude longitude) = 200 ->
  forecastDays data = Some (pre ++ fday :: post) ->
  first_match date pre fday ->
  PrimFloat.is_nan
    (avg_temp_of (maxTemperature_degrees fday) (minTemperature_degrees fday)) = true ->
  exists result : Payload,
    get_weather_forecast weather_endpoint latitude longitude date = Ok result /\
    dict_get "clothing_recommendation" result
    = Some (PyStr ("t-shirt and light clothing"
                   +:+ precip_addition
                         (precipitation_probability_percent (daytimeForecast fday)))).
Proof.
  intros Hj Hs Hd Hm Hnan.
  exists (matched_day_result fday date).
  split; [exact (get_weather_forecast_matched _ _ _ _ _ _ _ _ Hj Hs Hd Hm)|].
  unfold matched_day_result, tier_clothing. cbv zeta.
  rewrite !(is_nan_ltb _ _ Hnan). reflexivity.
Qed.

Lemma nan_average_gives_light_clothing_witness :
  exists result : Payload,
    get_weather_forecast
      (fun _ _ => mkResponse 200
         (Ok (mkWeather (Some [stub_day (mkDate 2026 2 16) infinity neg_infinity 10]))))
      48.875%float 2.375%float "2026-02-16" = Ok result /\
    dict_get "clothing_recommendation" result
    = Some (PyStr "t-shirt and light clothing").
Proof.
  exact (nan_average_gives_light_clothing
           (fun _ _ => mkResponse 200
              (Ok (mkWeather (Some [stub_day (mkDate 2026 2 16) infinity neg_infinity 10]))))
           48.875%float 2.375%float "2026-02-16"
           (mkWeather (Some [stub_day (mkDate 2026 2 16) infinity neg_infinity 10])) [] []
           (stub_day (mkDate 2026 2 16) infinity neg_infinity 10)
           eq_refl eq_refl eq_refl (conj (List.Forall_nil _) eq_refl) eq_refl).
Defined.

(** ** Formatted dates do not collide *)

Lemma length_append (s t : string) :
  String.length (s +:+ t) = (String.length s + String.length t)%nat.
Proof.
  induction s as [|c s IH]; [reflexivity|].
  change (S (String.length (s +:+ t)) = S (String.length s + String.length t)).
  f_equal. exact IH.
Qed.

Lemma append_eq_same_tail_length (s1 s2 t1 t2 : string) :
  s1 +:+ t1 = s2 +:+ t2 -> String.length t1 = String.length t2 ->
  s1 = s2 /\ t1 = t2.
Proof.
  revert s2. induction s1 as [|c1 s1 IH]; intros [|c2 s2] H Hlen.
  - split; [reflexivity|exact H].
  - exfalso. change (t1 = String c2 (s2 +:+ t2)) in H. subst t1.
    change (S (String.length (s2 +:+ t2)) = String.length t2) in Hlen.
    rewrite length_append in Hlen. lia.
  - exfalso. change (String c1 (s1 +:+ t1) = t2) in H. subst t2.
    change (String.length t1 = S (String.length (s1 +:+ t1))) in Hlen.
    rewrite length_append in Hlen. lia.
  - change (String c1 (s1 +:+ t1) = String c2 (s2 +:+ t2)) in H.
    injection H as -> H. destruct (IH _ H Hlen) as [-> ->]. split; reflexivity.
Qed.

Lemma py_str_int_inj (a b : Z) : py_str_int a = py_str_int b -> a = b.
Proof.
  unfold py_str_int. intros H.
  assert (Hnn : forall z, Z.to_int z <> Decimal.Pos Decimal.Nil /\
                          Z.to_int z <> Decimal.Neg Decimal.Nil).
  { intros [|p|p]; simpl; split; try discriminate;
      intros [= E]; exact (DecimalPos.Unsigned.to_uint_nonnil p E). }
  apply DecimalZ.to_int_inj.
  assert (E : Some (Z.to_int a) = Some (Z.to_int b)); [|congruence].
  rewrite <- (NilZero.isi (Z.to_int a)), <- (NilZero.isi (Z.to_int b)) by apply Hnn.
  rewrite H. reflexivity.
Qed.

Lemma two_digits_range (n : Z) :
  0 <= n <= 99 -> In (Z.to_nat n) (seq 0 100).
Proof. intros H. apply in_seq. lia. Qed.

Lemma format_02d_length (n : Z) :
  0 <= n <= 99 -> String.length (format_02d n) = 2%nat.
Proof.
  intros H.
  assert (Hall : forallb (fun k => Nat.eqb (String.length (format_02d (Z.of_nat k))) 2)
                   (seq 0 100) = true) by (vm_compute; reflexivity).
  rewrite forallb_forall in Hall. specialize (Hall _ (two_digits_range n H)).
  rewrite Z2Nat.id in Hall by lia. apply Nat.eqb_eq. exact Hall.
Qed.

Lemma format_02d_inj (a b : Z) :
  0 <= a <= 99 -> 0 <= b <= 99 -> format_02d a = format_02d b -> a = b.
Proof.
  intros Ha Hb H.
  assert (Hall : forallb (fun i => forallb (fun j =>
                   implb (String.eqb (format_02d (Z.of_nat i)) (format_02d (Z.of_nat j)))
                         (Nat.eqb i j)) (seq 0 100)) (seq 0 100) = true)
    by (vm_compute; reflexivity).
  rewrite forallb_forall in Hall. specialize (Hall _ (two_digits_range a Ha)).
  rewrite forallb_forall in Hall. specialize (Hall _ (two_digits_range b Hb)).
  rewrite !Z2Nat.id in Hall by lia. rewrite H, String.eqb_refl in Hall. simpl in Hall.
  apply Nat.eqb_eq in Hall. lia.
Qed.

Lemma forecast_date_of_inj (d1 d2 : DisplayDate) :
  calendar_date d1 -> calendar_date d2 ->
  forecast_date_of d1 = forecast_date_of d2 -> d1 = d2.
Proof.
  intros [Hm1 Hd1] [Hm2 Hd2]. unfold forecast_date_of. intros H.
  assert (Hl : forall m d, 0 <= m <= 99 -> 0 <= d <= 99 ->
                 String.length ("-" +:+ format_02d m +:+ "-" +:+ format_02d d) = 6%nat).
  { intros m d Hm Hd. rewrite !length_append, !format_02d_length by assumption. reflexivity. }
  apply append_eq_same_tail_length in H as [Hy H];
    [|rewrite !Hl by lia; reflexivity].
  apply py_str_int_inj in Hy.
  assert (Hdash : forall s, "-" +:+ s = String (Ascii.ascii_of_nat 45) s) by reflexivity.
  rewrite !Hdash in H. injection H as H.
  apply append_eq_same_tail_length in H as [Hmm H];
    [|simpl; rewrite !format_02d_length by lia; reflexivity].
  injection H as Hdd.
  apply format_02d_inj in Hmm; [|lia|lia]. apply format_02d_inj in Hdd; [|lia|lia].
  destruct d1, d2; simpl in *; congruence.
Qed.

(** X4: calendar dates keep apart when formatted, so a request for the
    formatted form of a calendar date is answered from a day of exactly that
    date: on a status-200 response whose days all carry calendar dates
    (month 1 to 12, day 1 to 31), the result is a success payload exactly
    when one of the fetched days has the requested year, month and day. *)
Theorem forecast_found_iff_date_fetched
  (weather_endpoint : float -> float -> Response WeatherData)
  (latitude longitude : float) (requested : DisplayDate) (data : WeatherData) :
  let response := weather_endpoint latitude longitude in
  let days := default [] (forecastDays data) in
  json response = Ok data ->
  status_code response = 200 ->
  calendar_date requested ->
  Forall (fun fday => calendar_date (displayDate fday)) days ->
  exists result : Payload,
    get_weather_forecast weather_endpoint latitude longitude (forecast_date_of requested)
    = Ok result /\
    (is_error result = false
     <-> exists fday, In fday days /\ displayDate fday = requested).
Proof.
  intros response days Hj Hs Hreq Hdays.
  unfold get_weather_forecast. fold response. rewrite Hj, Hs. simpl. fold days.
  eexists. split; [reflexivity|].
  destruct (scan_forecast_days_cases (forecast_date_of requested) days)
    as [[Hall ->]|(pre & fday & post & Hsplit & [Hpre Hday] & ->)].
  - split; [discriminate|].
    intros (fday & Hin & Hd). exfalso.
    rewrite Forall_forall in Hall. apply (Hall fday); [apply list_elem_of_In; exact Hin|].
    rewrite Hd. reflexivity.
  - split; [|reflexivity]. intros _. exists fday.
    assert (Hin : In fday days)
      by (rewrite Hsplit; apply in_or_app; right; left; reflexivity).
    split; [exact Hin|].
    apply forecast_date_of_inj; [|exact Hreq|exact Hday].
    rewrite Forall_forall in Hdays. apply Hdays. apply list_elem_of_In. exact Hin.
Qed.

Lemma forecast_found_iff_date_fetched_witness :
  exists result : Payload,
    get_weather_forecast stub_weather_endpoint 48.875%float 2.375%float "2026-02-19"
    = Ok result /\
    is_error result = false.
Proof.
  destruct (forecast_found_iff_date_fetched stub_weather_endpoint 48.875%float 2.375%float
              (mkDate 2026 2 19) (mkWeather (Some stub_days)) eq_refl eq_refl)
    as (result & Hrun & Hiff).
  - unfold calendar_date. simpl. lia.
  - repeat constructor; simpl; lia.
  - exists result. split; [exact Hrun|]. apply Hiff.
    exists (stub_day (mkDate 2026 2 19) 25%float 15%float 55).
    split; [simpl; tauto|reflexivity].
Defined.

(** * Credentials and the tool registry *)

(** X5: the import-time check lets the program start only when both keys
    are set to non-empty strings; a missing or empty Google key raises the
    Google error whatever the Groq key is, and with the Google key in place
    a missing or empty Groq key raises the Groq error. *)
Theorem api_keys_required (environ : gmap string string) :
  let google := environ !! "GOOGLE_API_KEY" in
  let groq := environ !! "GROQ_API_KEY" in
  ((google = None \/ google = Some "") ->
     load_api_keys environ = Raise "ValueError: GOOGLE_API_KEY not found in .env file") /\
  (forall g, google = Some g -> g <> "" -> (groq = None \/ groq = Some "") ->
     load_api_keys environ = Raise "ValueError: GROQ_API_KEY not found in .env file") /\
  (forall keys, load_api_keys environ = Ok keys <->
     google = Some keys.1 /\ keys.1 <> "" /\ groq = Some keys.2 /\ keys.2 <> "").
Proof.
  intros google groq. unfold load_api_keys, getenv. fold google. fold groq. cbv zeta.
  split; [|split].
  - intros [-> | ->]; reflexivity.
  - intros g -> Hg Hq. simpl.
    destruct (String.eqb_spec g ""); [contradiction|].
    destruct Hq as [-> | ->]; reflexivity.
  - intros [g q]. simpl.
    destruct google as [g'|]; simpl; [|split; [discriminate|intros [[=] _]]].
    destruct (String.eqb_spec g' "") as [->|Hg].
    { split; [discriminate|]. intros ([= <-] & Hne & _). contradiction. }
    destruct groq as [q'|]; simpl; [|split; [discriminate|intros (_ & _ & [=] & _)]].
    destruct (String.eqb_spec q' "") as [->|Hq].
    { split; [discriminate|]. intros (_ & _ & [= <-] & Hne). contradiction. }
    split.
    + intros [= <- <-]. repeat split; assumption.
    + intros ([= <-] & _ & [= <-] & _). reflexivity.
Qed.

Lemma api_keys_required_witness :
  load_api_keys stub_environ = Ok ("g-key", "q-key") /\
  load_api_keys (<["GOOGLE_API_KEY" := ""]> stub_environ)
    = Raise "ValueError: GOOGLE_API_KEY not found in .env file".
Proof.
  split.
  - destruct (api_keys_required stub_environ) as (_ & _ & Hok).
    apply (Hok ("g-key", "q-key")). simpl. repeat split; (reflexivity || discriminate).
  - destruct (api_keys_required (<["GOOGLE_API_KEY" := ""]> stub_environ)) as (Hgoogle & _).
    apply Hgoogle. right. reflexivity.
Defined.

Lemma create_travel_agent_lookup {Args World : Type}
  (llm_with_tools : Model Args World) (place_tool weather_tool air_tool : Tool Args World)
  (tool_name : string) :
  (create_travel_agent llm_with_tools place_tool weather_tool air_tool).2 !! tool_name
  = if decide (tool_name = "get_air_quality") then Some air_tool
    else if decide (tool_name = "get_weather_forecast") then Some weather_tool
    else if decide (tool_name = "get_place_details") then Some place_tool
    else None.
Proof.
  unfold create_travel_agent, dict_of_tools, Tool in *. simpl.
  repeat case_decide; subst; simplify_map_eq; reflexivity.
Qed.

(** X6: [create_travel_agent] registers the three adapters under their
    function names and nothing else, so in the loop that uses its registry a
    request is dispatched exactly when it names one of the three, and an
    iteration that runs to its end appends as many tool results as the
    assistant message has requests with one of those names. *)
Theorem travel_agent_registry {Args World : Type}
  (llm_with_tools : Model Args World) (place_tool weather_tool air_tool : Tool Args World) :
  let agent := create_travel_agent llm_with_tools place_tool weather_tool air_tool in
  let adapter_names := ["get_place_details"; "get_weather_forecast"; "get_air_quality"] in
  agent.1 = llm_with_tools /\
  agent.2 !! "get_place_details" = Some place_tool /\
  agent.2 !! "get_weather_forecast" = Some weather_tool /\
  agent.2 !! "get_air_quality" = Some air_tool /\
  (forall tool_call : ToolCall Args,
     is_registered agent.2 tool_call = true <-> In (tc_name tool_call) adapter_names) /\
  (forall (st st' : State Args World) (flow : Flow),
     loop_body agent.1 agent.2 st = (st', Ok flow) ->
     exists w response tool_results,
       llm_with_tools (world st) (messages st) = (w, Ok response) /\
       messages st' = messages st ++ AIMessage response :: tool_results /\
       length tool_results
       = length (List.filter (fun tool_call =>
                                bool_decide (In (tc_name tool_call) adapter_names))
                             (tool_calls response))).
Proof.
  intros agent adapter_names.
  assert (Hreg : forall tool_call : ToolCall Args,
             is_registered agent.2 tool_call
             = bool_decide (In (tc_name tool_call) adapter_names)).
  { intros tool_call. unfold is_registered, agent.
    rewrite (create_travel_agent_lookup llm_with_tools place_tool weather_tool air_tool
               (tc_name tool_call)).
    unfold adapter_names.
    destruct (decide (tc_name tool_call = "get_air_quality")) as [E|N1].
    { symmetry. apply bool_decide_eq_true. rewrite E. simpl. tauto. }
    destruct (decide (tc_name tool_call = "get_weather_forecast")) as [E|N2].
    { symmetry. apply bool_decide_eq_true. rewrite E. simpl. tauto. }
    destruct (decide (tc_name tool_call = "get_place_details")) as [E|N3].
    { symmetry. apply bool_decide_eq_true. rewrite E. simpl. tauto. }
    symmetry. apply bool_decide_eq_false. simpl. intros [H|[H|[H|[]]]]; congruence. }
  split; [reflexivity|].
  split; [reflexivity|]. split; [reflexivity|]. split; [reflexivity|].
  split.
  - intros tool_call. rewrite Hreg. apply bool_decide_eq_true.
  - intros st st' flow Hbody.
    apply loop_body_completed in Hbody as (w & response & contents & Hllm & Hlen & Hmsg & _).
    exists w, response,
      (zip_with ToolMessage contents
         (List.map tc_id (registered_requests agent.2 (tool_calls response)))).
    split; [exact Hllm|]. split; [exact Hmsg|].
    pose proof (zip_tool_messages_ids contents _ Hlen) as HF.
    apply Forall2_length in HF. rewrite HF. unfold registered_requests.
    f_equal. apply filter_ext. exact Hreg.
Qed.

Lemma travel_agent_registry_witness :
  exists (st' : State unit unit) (tool_results : list (Message unit)),
    loop_body
      (stub_model [stub_call "get_air_quality" "call_1"; stub_call "get_hotels" "call_2"])
      (create_travel_agent
         (stub_model [stub_call "get_air_quality" "call_1"; stub_call "get_hotels" "call_2"])
         (stub_tool_returning "{name: Atomium}") (stub_tool_returning "{condition: Cloudy}")
         (stub_tool_returning "{aqi: 42}")).2
      (mkState stub_messages [] tt O) = (st', Ok Continue) /\
    messages st'
    = stub_messages
      ++ AIMessage (mkAI "" [stub_call "get_air_quality" "call_1";
                             stub_call "get_hotels" "call_2"])
         :: tool_results /\
    length tool_results = 1%nat.
Proof.
  eexists.
  destruct (travel_agent_registry
              (stub_model [stub_call "get_air_quality" "call_1"; stub_call "get_hotels" "call_2"])
              (stub_tool_returning "{name: Atomium}") (stub_tool_returning "{condition: Cloudy}")
              (stub_tool_returning "{aqi: 42}")) as (_ & _ & _ & _ & _ & Hbody).
  destruct (Hbody (mkState stub_messages [] tt O) _ Continue eq_refl)
    as (w & response & tool_results & Hllm & Hmsg & Hlen).
  exists tool_results. split; [reflexivity|].
  inversion Hllm; subst. split; [exact Hmsg|exact Hlen].
Defined.

(** * Further properties of the tool-calling loop *)

Section MoreLoopFacts.

Context {Args World : Type}.
Variable llm_with_tools : Model Args World.
Variable tool_map : gmap string (Tool Args World).

Lemma last_app_cons {A : Type} (l : list A) (x : A) (k : list A) :
  last (l ++ x :: k) = last (x :: k).
Proof.
  rewrite last_app. destruct (last (x :: k)) eqn:E; [reflexivity|].
  apply last_None in E. discriminate E.
Qed.

Lemma last_of_tool_results (response : AIResponse Args) (contents ids : list string)
  (m : Message Args) :
  last (AIMessage response :: zip_with ToolMessage contents ids) = Some m ->
  m = AIMessage response \/ is_tool_message m = true.
Proof.
  intros H. apply last_Some_elem_of in H. apply list_elem_of_In in H.
  destruct H as [<-|H]; [left; reflexivity|right].
  revert ids H. induction contents as [|c contents IH]; intros [|i ids]; simpl;
    try contradiction.
  intros [<-|H]; [reflexivity|eapply IH; exact H].
Qed.

Lemma exec_tool_calls_stdout (calls : list (ToolCall Args)) (st st' : State Args World)
  (u : unit) :
  exec_tool_calls tool_map calls st = (st', Ok u) ->
  stdout st' = stdout st ++ concat (List.map (request_output tool_map) calls).
Proof.
  revert st. induction calls as [|tool_call rest IH]; simpl; intros st H.
  - inversion H; subst. rewrite app_nil_r. reflexivity.
  - unfold request_output at 1.
    destruct (exec_tool_call_cases tool_map tool_call st)
      as [[Hreg E]|[[Hreg (w & s & E)]|[Hreg (w & e & E)]]];
      rewrite E in H; rewrite Hreg; [| |discriminate H];
      apply IH in H; rewrite H; simpl; rewrite <- !app_assoc; reflexivity.
Qed.

Section MoreWhile.

Variable max_iterations : Z.

Lemma while_loop_done_or_exhausted (fuel : nat) (iteration : Z) (st st' : State Args World)
  (u : unit) :
  while_loop llm_with_tools tool_map max_iterations fuel iteration st = Some (st', Ok u) ->
  (exists response, last (messages st') = Some (AIMessage response) /\
                    tool_calls response = []) \/
  llm_calls st' = (llm_calls st + Z.to_nat (max_iterations - iteration))%nat.
Proof.
  revert iteration st. induction fuel as [|fuel IH]; intros iteration st; simpl;
    destruct (Z.ltb_spec iteration max_iterations) as [Hlt|Hge]; try discriminate;
    try (intros H; inversion H; subst; right; lia).
  destruct (loop_body llm_with_tools tool_map st) as [st1 [flow|e]] eqn:E; [|discriminate].
  pose proof (loop_body_grows _ _ _ _ _ E) as [_ Hcalls].
  apply loop_body_completed in E as (w & response & contents & _ & Hlen & Hmsg & Hflow).
  destruct flow; intros H.
  - apply IH in H as [Hdone|Hex]; [left; exact Hdone|right; lia].
  - inversion H; subst. left. exists response.
    assert (Hnil : tool_calls response = []) by (apply Hflow; reflexivity).
    split; [|exact Hnil]. rewrite Hnil in Hlen, Hmsg.
    destruct contents; [|discriminate Hlen].
    rewrite Hmsg. simpl. apply last_snoc.
Qed.

Lemma while_loop_always_requests (fuel : nat) (iteration : Z) (st st' : State Args World)
  (r : result unit) :
  model_always_requests llm_with_tools -> tools_never_raise tool_map ->
  while_loop llm_with_tools tool_map max_iterations fuel iteration st = Some (st', r) ->
  r = Ok tt /\
  llm_calls st' = (llm_calls st + Z.to_nat (max_iterations - iteration))%nat /\
  (iteration < max_iterations ->
   forall m, last (messages st') = Some m -> is_final_answer m = false).
Proof.
  intros Hllm Htools. revert iteration st.
  induction fuel as [|fuel IH]; intros iteration st; simpl;
    destruct (Z.ltb_spec iteration max_iterations) as [Hlt|Hge]; try discriminate;
    try (intros H; inversion H; subst; split; [reflexivity|split; lia]).
  unfold loop_body.
  destruct (Hllm (world st) (messages st)) as (w & response & -> & Hcalls).
  destruct (tool_calls response) as [|c rest] eqn:Hc; [contradiction|].
  destruct (exec_tool_calls_no_raise tool_map (c :: rest)
              (append_message (AIMessage response) (count_llm_call (set_world w st))) Htools)
    as (st1 & E).
  rewrite E.
  pose proof (exec_tool_calls_grows _ _ _ _ _ E) as [_ Hcount]. simpl in Hcount.
  apply exec_tool_calls_completed in E as (contents & _ & Hmsg). simpl in Hmsg.
  intros H.
  destruct (Z.ltb_spec (iteration + 1) max_iterations) as [Hmore|Hlast].
  - apply IH in H as (-> & Hc' & Hlastmsg).
    split; [reflexivity|]. split; [lia|]. intros _. apply Hlastmsg. exact Hmore.
  - destruct fuel as [|fuel']; simpl in H;
      destruct (Z.ltb_spec (iteration + 1) max_iterations); try lia;
      inversion H; subst; (split; [reflexivity|]); (split; [lia|]);
      intros _ m Hm; rewrite Hmsg, <- app_assoc in Hm; simpl in Hm;
      rewrite last_app_cons in Hm;
      apply last_of_tool_results in Hm as [-> |Hm];
      try (simpl; rewrite Hc; reflexivity); destruct m; try discriminate; reflexivity.
Qed.

End MoreWhile.

End MoreLoopFacts.

(** X7: a run that returns after fewer model invocations than its budget
    ended because the model stopped asking for tools: the last message of
    the returned list is an assistant message without requests, and
    [messages[-1].content] is that message's text.  (A run that used the
    whole budget may end in a tool result or in an assistant message that
    still carries requests.) *)
Theorem returned_before_budget_ends_with_answer {Args World : Type}
  (llm_with_tools : Model Args World) (tool_map : gmap string (Tool Args World))
  (messages0 : list (Message Args)) (max_iterations : Z) (w : World)
  (st : State Args World) (returned : list (Message Args)) :
  run_agent_with_tools llm_with_tools tool_map messages0 max_iterations w
  = Some (st, Ok returned) ->
  (llm_calls st < Z.to_nat max_iterations)%nat ->
  exists response,
    last returned = Some (AIMessage response) /\
    tool_calls response = [] /\
    last_content returned = Ok (ai_content response).
Proof.
  unfold run_agent_with_tools. cbv zeta.
  destruct (while_loop llm_with_tools tool_map max_iterations (Z.to_nat max_iterations) 0
              (mkState messages0 [] w O)) as [[st0 [u|e]]|] eqn:Hw; try discriminate.
  intros [= -> <-] Hlt.
  apply while_loop_done_or_exhausted in Hw as [(response & Hlast & Hnil)|Hex].
  - exists response. split; [exact Hlast|]. split; [exact Hnil|].
    unfold last_content. rewrite Hlast. reflexivity.
  - simpl in Hex. rewrite Z.sub_0_r in Hex. lia.
Qed.

Lemma returned_before_budget_ends_with_answer_witness :
  exists st : State unit unit,
    run_agent_with_tools (stub_model [stub_call "get_air_quality" "call_1"])
      stub_tool_map stub_messages default_max_iterations tt
    = Some (st, Ok (messages st)) /\
    last_content (messages st) = Ok "Here is your plan.".
Proof.
  eexists. split; [reflexivity|].
  destruct (returned_before_budget_ends_with_answer
              (stub_model [stub_call "get_air_quality" "call_1"])
              stub_tool_map stub_messages default_max_iterations tt _ _ eq_refl)
    as (response & Hlast & _ & Hcontent).
  - vm_compute. lia.
  - rewrite Hcontent. vm_compute in Hlast. inversion Hlast. reflexivity.
Defined.

(** X8: against a model that asks for a tool on every turn, with adapters
    that do not raise, the loop stops only at the budget: the run returns
    after exactly [max_iterations] model invocations (none when the budget
    is not positive), and when the budget is positive the last message of the
    conversation is not a final answer. *)
Theorem insistent_model_uses_whole_budget {Args World : Type}
  (llm_with_tools : Model Args World) (tool_map : gmap string (Tool Args World))
  (messages0 : list (Message Args)) (max_iterations : Z) (w : World) :
  model_always_requests llm_with_tools -> tools_never_raise tool_map ->
  exists st : State Args World,
    run_agent_with_tools llm_with_tools tool_map messages0 max_iterations w
    = Some (st, Ok (messages st)) /\
    llm_calls st = Z.to_nat max_iterations /\
    (1 <= max_iterations ->
     forall m, last (messages st) = Some m -> is_final_answer m = false).
Proof.
  intros Hllm Htools. unfold run_agent_with_tools. cbv zeta.
  destruct (while_loop_enough_fuel llm_with_tools tool_map max_iterations
              (Z.to_nat max_iterations) 0 (mkState messages0 [] w O)) as (st & r & Hrun);
    [lia|].
  rewrite Hrun.
  apply (while_loop_always_requests _ _ _ _ _ _ _ _ Hllm Htools) in Hrun
    as (-> & Hcalls & Hlast).
  simpl in Hcalls. rewrite Z.sub_0_r in Hcalls.
  exists st. split; [reflexivity|]. split; [exact Hcalls|].
  intros Hmax. apply Hlast. lia.
Qed.

Lemma insistent_model_uses_whole_budget_witness :
  exists st : State unit unit,
    run_agent_with_tools
      (fun w _ => (w, Ok (mkAI "" [stub_call "get_air_quality" "call_1"])))
      stub_tool_map stub_messages default_max_iterations tt
    = Some (st, Ok (messages st)) /\
    llm_calls st = 15%nat.
Proof.
  destruct (insistent_model_uses_whole_budget
              (fun (w : unit) (_ : list (Message unit)) =>
                 (w, Ok (mkAI "" [stub_call "get_air_quality" "call_1"])))
              stub_tool_map stub_messages default_max_iterations tt)
    as (st & Hrun & Hcalls & _).
  - intros w msgs. eexists _, _. split; [reflexivity|discriminate].
  - exact stub_tool_map_never_raises.
  - exists st. split; [exact Hrun|exact Hcalls].
Defined.

(** X9: an exception raised by the model invocation is not captured
    either: the iteration ends with it after counting the invocation, nothing
    is appended or printed for that iteration, and the exception leaves the
    loop; when it happens on the first invocation [run_agent_with_tools]
    ends with the caller's list unchanged. *)
Theorem model_exception_propagates {Args World : Type}
  (llm_with_tools : Model Args World) (tool_map : gmap string (Tool Args World))
  (max_iterations : Z) (fuel : nat) (iteration : Z)
  (st : State Args World) (w : World) (e : string) :
  iteration < max_iterations ->
  llm_with_tools (world st) (messages st) = (w, Raise e) ->
  exists st',
    while_loop llm_with_tools tool_map max_iterations (S fuel) iteration st
    = Some (st', Raise e) /\
    messages st' = messages st /\
    stdout st' = stdout st /\
    llm_calls st' = S (llm_calls st) /\
    (forall messages0 w0,
       st = mkState messages0 [] w0 O -> iteration = 0 ->
       run_agent_with_tools llm_with_tools tool_map messages0 max_iterations w0
       = Some (st', Raise e) /\ messages st' = messages0).
Proof.
  intros Hlt Hllm.
  assert (Hwhile : forall fuel', while_loop llm_with_tools tool_map max_iterations
                                   (S fuel') iteration st
                                 = Some (count_llm_call (set_world w st), Raise e)).
  { intros fuel'. simpl. destruct (Z.ltb_spec iteration max_iterations); [|lia].
    unfold loop_body. rewrite Hllm. reflexivity. }
  exists (count_llm_call (set_world w st)).
  split; [apply Hwhile|]. repeat (split; [reflexivity|]).
  intros messages0 w0 -> ->. split; [|reflexivity].
  unfold run_agent_with_tools. destruct (Z.to_nat max_iterations) eqn:Hn; [lia|].
  cbv zeta. rewrite Hwhile. reflexivity.
Qed.

Lemma model_exception_propagates_witness :
  run_agent_with_tools (fun (w : unit) (_ : list (Message unit)) => (w, Raise "RateLimitError"))
    stub_tool_map stub_messages default_max_iterations tt
  = Some (mkState stub_messages [] tt 1%nat, Raise "RateLimitError").
Proof.
  destruct (model_exception_propagates
              (fun (w : unit) (_ : list (Message unit)) => (w, Raise "RateLimitError"))
              stub_tool_map default_max_iterations O 0
              (mkState stub_messages [] tt O) tt "RateLimitError" eq_refl eq_refl)
    as (st' & Hwhile & _ & _ & _ & Hrun).
  destruct (Hrun stub_messages tt eq_refl eq_refl) as [Hr _].
  rewrite Hr. simpl in Hwhile. inversion Hwhile. reflexivity.
Defined.

(** X10: in an iteration that runs to its end the loop announces every
    request of the assistant message once, in the order of the message, and
    reports a request right after its announcement exactly when its tool name
    is not registered; nothing else is printed. *)
Theorem iteration_output_follows_requests {Args World : Type}
  (llm_with_tools : Model Args World) (tool_map : gmap string (Tool Args World))
  (st st' : State Args World) (flow : Flow) :
  loop_body llm_with_tools tool_map st = (st', Ok flow) ->
  exists w response,
    llm_with_tools (world st) (messages st) = (w, Ok response) /\
    stdout st'
    = stdout st ++ concat (List.map (request_output tool_map) (tool_calls response)) /\
    List.filter (fun o => match o with CallingTool _ _ => true | _ => false end)
                (concat (List.map (request_output tool_map) (tool_calls response)))
    = List.map (fun tool_call => CallingTool (tc_name tool_call) (tc_args tool_call))
               (tool_calls response).
Proof.
  unfold loop_body. intros H.
  destruct (llm_with_tools (world st) (messages st)) as [w [response|e]]; [|discriminate H].
  exists w, response. split; [reflexivity|]. split.
  - destruct (tool_calls response) as [|c rest] eqn:Hc.
    + inversion H; subst. simpl. rewrite app_nil_r. reflexivity.
    + destruct (exec_tool_calls tool_map (c :: rest) _) as [st1 [u|e]] eqn:E;
        [|discriminate H].
      inversion H; subst. apply exec_tool_calls_stdout in E. exact E.
  - clear H. induction (tool_calls response) as [|c rest IH]; [reflexivity|].
    simpl. unfold request_output at 1.
    destruct (is_registered tool_map c); simpl; f_equal; exact IH.
Qed.

Lemma iteration_output_follows_requests_witness :
  exists st' : State unit unit,
    loop_body (stub_model [stub_call "get_air_quality" "call_1"; stub_call "nope" "call_2"])
      stub_tool_map (mkState stub_messages [] tt O) = (st', Ok Continue) /\
    stdout st'
    = [CallingTool "get_air_quality" tt; CallingTool "nope" tt; ToolNotFound "nope"].
Proof.
  eexists.
  destruct (iteration_output_follows_requests
              (stub_model [stub_call "get_air_quality" "call_1"; stub_call "nope" "call_2"])
              stub_tool_map (mkState stub_messages [] tt O) _ Continue eq_refl)
    as (w & response & Hllm & Hout & _).
  split; [reflexivity|]. inversion Hllm; subst. rewrite Hout. reflexivity.
Defined.

(** * The interactive session of [main] *)

Section SessionFacts.

Context {Args World : Type}.
Variable llm_with_tools : Model Args World.
Variable tool_map : gmap string (Tool Args World).
Variable strip : string -> string.
Variable lower : string -> string.

(** One agent run inside the session: it always ends, keeps what the
    conversation held, adds at most 15 model invocations, and a run that
    returns leaves at least the assistant message behind. *)
Lemma session_run_agent_ends (s : Session Args World) :
  exists s' r,
    session_run_agent llm_with_tools tool_map s = Some (s', r) /\
    session_messages s `prefix_of` session_messages s' /\
    (session_llm_calls s' <= session_llm_calls s + 15)%nat /\
    (r = Ok tt \/ exists e, r = Raise e) /\
    (r = Ok tt -> (length (session_messages s) < length (session_messages s'))%nat) /\
    (model_never_raises llm_with_tools -> tools_never_raise tool_map -> r = Ok tt).
Proof.
  unfold session_run_agent, run_agent_with_tools. cbv zeta.
  destruct (while_loop_enough_fuel llm_with_tools tool_map default_max_iterations
              (Z.to_nat default_max_iterations) 0
              (mkState (session_messages s) [] (session_world s) O)) as (st & r & Hrun);
    [lia|].
  rewrite Hrun.
  pose proof (while_loop_grows _ _ _ _ _ _ _ _ Hrun) as [Hprefix Hcalls].
  simpl in Hprefix, Hcalls.
  destruct r as [u|e]; eexists _, _; (split; [reflexivity|]); simpl.
  - split; [exact Hprefix|]. split; [unfold default_max_iterations in Hcalls; lia|].
    split; [left; reflexivity|]. split; [|reflexivity].
    intros _.
    assert (Hlt : 0 < default_max_iterations) by (unfold default_max_iterations; lia).
    exact (while_loop_strict llm_with_tools tool_map default_max_iterations _ 0 _ _ u Hlt Hrun).
  - split; [exact Hprefix|]. split; [unfold default_max_iterations in Hcalls; lia|].
    split; [right; eauto|]. split; [discriminate|].
    intros Hllm Htools.
    pose proof (while_loop_no_raise _ _ _ _ _ _ _ _ Hllm Htools Hrun). discriminate.
Qed.

Lemma last_content_nonempty (msgs : list (Message Args)) :
  (0 < length msgs)%nat -> exists answer, last_content msgs = Ok answer.
Proof.
  intros H. unfold last_content. destruct (last msgs) as [m|] eqn:E; [eauto|].
  apply last_None in E. subst. simpl in H. lia.
Qed.

Lemma follow_up_loop_ends (stdin : list string) (s : Session Args World) :
  exists s' r,
    follow_up_loop llm_with_tools tool_map strip lower stdin s = Some (s', r) /\
    session_messages s `prefix_of` session_messages s' /\
    (session_llm_calls s'
     <= session_llm_calls s + 15 * length (List.filter (asks_agent strip) stdin))%nat /\
    (r = Ok tt ->
     exists line, In line stdin /\ is_quit_word (lower (strip line)) = true) /\
    (model_never_raises llm_with_tools -> tools_never_raise tool_map ->
     Forall (fun line => is_quit_word (lower (strip line)) = false) stdin ->
     r = Raise "EOFError").
Proof.
  revert s. induction stdin as [|line stdin IH]; intros s.
  - eexists _, _. split; [reflexivity|]. simpl. split; [reflexivity|].
    split; [lia|]. split; [discriminate|]. reflexivity.
  - assert (Hf : length (List.filter (asks_agent strip) (line :: stdin))
                 = ((if String.eqb (strip line) "" then 0 else 1)
                    + length (List.filter (asks_agent strip) stdin))%nat).
    { simpl. unfold asks_agent at 1. destruct (String.eqb (strip line) ""); reflexivity. }
    rewrite Hf. clear Hf.
    set (n := length (List.filter (asks_agent strip) stdin)) in *.
    cbn [follow_up_loop].
    destruct (is_quit_word (lower (strip line))) eqn:Hquit.
    { eexists _, _. split; [reflexivity|]. cbn [session_messages session_llm_calls session_print].
      split; [reflexivity|].
      split; [lia|]. split; [intros _; exists line; split; [left; reflexivity|exact Hquit]|].
      intros _ _ Hall. inversion Hall; subst. congruence. }
    destruct (String.eqb (strip line) "") eqn:Hblank.
    { destruct (IH (session_print (Prompted (nl +:+ "SataM: ")) s))
        as (s' & r & Hrun & Hprefix & Hcalls & Hok & Heof).
      cbn [session_messages session_llm_calls session_print] in Hprefix, Hcalls.
      exists s', r. split; [exact Hrun|]. split; [exact Hprefix|].
      split; [lia|]. split.
      - intros Hr. destruct (Hok Hr) as (l & Hin & Hq). exists l. split; [right|]; assumption.
      - intros Hllm Htools Hall. inversion Hall; subst. apply Heof; assumption. }
    set (s1 := session_append (HumanMessage (strip line))
                 (session_print (Prompted (nl +:+ "SataM: ")) s)).
    destruct (session_run_agent_ends s1)
      as (s2 & r2 & Hrun2 & Hprefix2 & Hcalls2 & Hcases & Hstrict & Hnoraise).
    rewrite Hrun2.
    assert (Hs1 : session_messages s `prefix_of` session_messages s2).
    { etransitivity; [|exact Hprefix2]. unfold s1. simpl. apply prefix_app_r. reflexivity. }
    assert (Hc1 : session_llm_calls s1 = session_llm_calls s) by reflexivity.
    destruct Hcases as [-> | (e & ->)].
    + destruct (last_content_nonempty (session_messages s2)) as (answer & Hanswer);
        [specialize (Hstrict eq_refl); lia|].
      rewrite Hanswer.
      destruct (IH (session_print (Printed (nl +:+ "Agent: " +:+ answer)) s2))
        as (s' & r & Hrun & Hprefix & Hcalls & Hok & Heof).
      cbn [session_messages session_llm_calls session_print] in Hprefix, Hcalls.
      exists s', r. split; [exact Hrun|].
      split; [etransitivity; [exact Hs1|exact Hprefix]|].
      split; [lia|].
      split.
      * intros Hr. destruct (Hok Hr) as (l & Hin & Hq). exists l. split; [right|]; assumption.
      * intros Hllm Htools Hall. inversion Hall; subst. apply Heof; assumption.
    + exists s2, (Raise e). split; [reflexivity|]. split; [exact Hs1|].
      split; [lia|].
      split; [discriminate|].
      intros Hllm Htools _. specialize (Hnoraise Hllm Htools). discriminate.
Qed.

(** X12: the follow-up loop reads nothing after the first quit word: the
    outcome of a session, output included, is the same whatever lines follow
    it. *)
Lemma follow_up_loop_stops_at_quit (before after : list string) (quit_line : string)
  (s : Session Args World) :
  is_quit_word (lower (strip quit_line)) = true ->
  follow_up_loop llm_with_tools tool_map strip lower (before ++ quit_line :: after) s
  = follow_up_loop llm_with_tools tool_map strip lower (before ++ [quit_line]) s.
Proof.
  intros Hquit. revert s. induction before as [|line before IH]; intros s; simpl.
  - rewrite Hquit. reflexivity.
  - destruct (is_quit_word (lower (strip line))); [reflexivity|].
    destruct (String.eqb (strip line) ""); [apply IH|].
    destruct (session_run_agent llm_with_tools tool_map _) as [[s2 [u|e]]|]; try reflexivity.
    destruct (last_content (session_messages s2)); [apply IH|reflexivity].
Qed.

End SessionFacts.

Lemma follow_up_loop_stops_at_quit_witness :
  follow_up_loop (stub_model [stub_call "get_air_quality" "call_1"]) stub_tool_map
    stub_strip stub_lower ["What about Rome?"; "quit"; "And Vienna?"]
    (mkSession stub_messages [] tt O)
  = follow_up_loop (stub_model [stub_call "get_air_quality" "call_1"]) stub_tool_map
      stub_strip stub_lower ["What about Rome?"; "quit"]
      (mkSession stub_messages [] tt O).
Proof.
  exact (follow_up_loop_stops_at_quit (stub_model [stub_call "get_air_quality" "call_1"])
           stub_tool_map stub_strip stub_lower ["What about Rome?"] ["And Vienna?"] "quit"
           (mkSession stub_messages [] tt O) eq_refl).
Defined.

(** X11: the follow-up loop always ends.  It ends normally only after
    reading a line that is a quit word once stripped and lowered; otherwise
    it ends by an exception, and when neither the model nor an adapter raises
    and no line is a quit word, that exception is the [EOFError] of [input]
    at the end of the input. *)
Theorem session_ends_by_quit_or_exception {Args World : Type}
  (llm_with_tools : Model Args World) (tool_map : gmap string (Tool Args World))
  (strip lower : string -> string) (stdin : list string) (s : Session Args World) :
  exists s' r,
    follow_up_loop llm_with_tools tool_map strip lower stdin s = Some (s', r) /\
    (r = Ok tt \/ exists e, r = Raise e) /\
    (r = Ok tt ->
     exists line, In line stdin /\ is_quit_word (lower (strip line)) = true) /\
    (model_never_raises llm_with_tools -> tools_never_raise tool_map ->
     Forall (fun line => is_quit_word (lower (strip line)) = false) stdin ->
     r = Raise "EOFError").
Proof.
  destruct (follow_up_loop_ends llm_with_tools tool_map strip lower stdin s)
    as (s' & r & Hrun & _ & _ & Hok & Heof).
  exists s', r. split; [exact Hrun|]. split; [|split; assumption].
  destruct r as [[]|e]; [left; reflexivity|right; eauto].
Qed.

Lemma session_ends_by_quit_or_exception_witness :
  exists s' : Session unit unit,
    follow_up_loop (stub_model [stub_call "get_air_quality" "call_1"]) stub_tool_map
      stub_strip stub_lower ["What about Rome?"; ""] (mkSession stub_messages [] tt O)
    = Some (s', Raise "EOFError").
Proof.
  destruct (session_ends_by_quit_or_exception
              (stub_model [stub_call "get_air_quality" "call_1"]) stub_tool_map
              stub_strip stub_lower ["What about Rome?"; ""] (mkSession stub_messages [] tt O))
    as (s' & r & Hrun & _ & _ & Heof).
  exists s'. rewrite Hrun. f_equal. f_equal.
  apply Heof.
  - apply stub_model_never_raises.
  - exact stub_tool_map_never_raises.
  - repeat constructor.
Defined.

(** X13: [main] always ends, and however it ends the system prompt and the
    travel request are still the first two messages of the one conversation
    every agent run worked on; the model was invoked at most 15 times for the
    travel request and at most 15 times for each follow-up line that is not
    blank; and [main] ends normally only after a quit word. *)
Theorem main_conversation_and_budget {Args World : Type}
  (llm_with_tools : Model Args World) (tool_map : gmap string (Tool Args World))
  (strip lower : string -> string)
  (system_message travel_input : string) (stdin : list string) (w : World) :
  exists s r,
    main llm_with_tools tool_map strip lower system_message travel_input stdin w
    = Some (s, r) /\
    [SystemMessage system_message; HumanMessage travel_input]
      `prefix_of` session_messages s /\
    (session_llm_calls s
     <= 15 * (1 + length (List.filter (asks_agent strip) stdin)))%nat /\
    (r = Ok tt ->
     exists line, In line stdin /\ is_quit_word (lower (strip line)) = true).
Proof.
  unfold main. cbv zeta.
  match goal with
  | |- context [session_run_agent _ _ ?s0] => set (s1 := s0)
  end.
  assert (Hm1 : session_messages s1
                = [SystemMessage system_message; HumanMessage travel_input]) by reflexivity.
  assert (Hc1 : session_llm_calls s1 = O) by reflexivity.
  destruct (session_run_agent_ends llm_with_tools tool_map s1)
    as (s2 & r2 & Hrun2 & Hprefix2 & Hcalls2 & Hcases & Hstrict & _).
  rewrite Hrun2. rewrite Hm1 in Hprefix2.
  destruct Hcases as [-> | (e & ->)].
  - destruct (last_content_nonempty (session_messages s2)) as (final_message & Hfinal);
      [specialize (Hstrict eq_refl); lia|].
    rewrite Hfinal.
    match goal with
    | |- context [follow_up_loop _ _ _ _ _ ?s0] => set (s3 := s0)
    end.
    assert (Hm3 : session_messages s3 = session_messages s2) by reflexivity.
    assert (Hc3 : session_llm_calls s3 = session_llm_calls s2) by reflexivity.
    destruct (follow_up_loop_ends llm_with_tools tool_map strip lower stdin s3)
      as (s' & r & Hrun & Hprefix & Hcalls & Hok & _).
    exists s', r. split; [exact Hrun|].
    split; [etransitivity; [exact Hprefix2|]; rewrite <- Hm3; exact Hprefix|].
    split; [lia|exact Hok].
  - exists s2, (Raise e). split; [reflexivity|]. split; [exact Hprefix2|].
    split; [lia|discriminate].
Qed.

Lemma main_conversation_and_budget_witness :
  exists s : Session unit unit,
    main (stub_model [stub_call "get_air_quality" "call_1"]) stub_tool_map
      stub_strip stub_lower "You are an AI travel planning assistant."
      "City1: Paris 2026-02-16" ["What about Rome?"; "quit"] tt
    = Some (s, Ok tt) /\
    (session_llm_calls s <= 45)%nat.
Proof.
  destruct (main_conversation_and_budget
              (stub_model [stub_call "get_air_quality" "call_1"]) stub_tool_map
              stub_strip stub_lower "You are an AI travel planning assistant."
              "City1: Paris 2026-02-16" ["What about Rome?"; "quit"] tt)
    as (s & r & Hrun & _ & Hcalls & _).
  exists s. split; [|exact Hcalls].
  rewrite Hrun. vm_compute in Hrun. inversion Hrun. reflexivity.
Defined.

Section BlankLines.

Context {Args World : Type}.
Variable llm_with_tools : Model Args World.
Variable tool_map : gmap string (Tool Args World).
Variable strip : string -> string.
Variable lower : string -> string.

(** What was printed before has no influence on a session. *)
Lemma follow_up_loop_ignores_stdout (stdin : list string) (s1 s2 : Session Args World) :
  session_messages s1 = session_messages s2 ->
  session_world s1 = session_world s2 ->
  session_llm_calls s1 = session_llm_calls s2 ->
  outcome_core (follow_up_loop llm_with_tools tool_map strip lower stdin s1)
  = outcome_core (follow_up_loop llm_with_tools tool_map strip lower stdin s2).
Proof.
  revert s1 s2. induction stdin as [|line stdin IH]; intros s1 s2 Hm Hw Hc;
    cbn [follow_up_loop].
  - simpl. rewrite Hm, Hw, Hc. reflexivity.
  - destruct (is_quit_word (lower (strip line))).
    { simpl. rewrite Hm, Hw, Hc. reflexivity. }
    destruct (String.eqb (strip line) ""); [apply IH; assumption|].
    unfold session_run_agent. cbn [session_append session_print session_messages
                                     session_world session_llm_calls session_stdout].
    rewrite Hm, Hw, Hc.
    destruct (run_agent_with_tools llm_with_tools tool_map
                (session_messages s2 ++ [HumanMessage (strip line)])
                default_max_iterations (session_world s2)) as [[st [u|e]]|];
      [|reflexivity|reflexivity].
    cbn [session_messages].
    destruct (last_content (messages st)); [apply IH; reflexivity|reflexivity].
Qed.

Lemma follow_up_loop_skips_blank_lines (stdin : list string) (s : Session Args World) :
  is_quit_word (lower "") = false ->
  outcome_core (follow_up_loop llm_with_tools tool_map strip lower stdin s)
  = outcome_core (follow_up_loop llm_with_tools tool_map strip lower
                    (List.filter (asks_agent strip) stdin) s).
Proof.
  intros Hempty. revert s. induction stdin as [|line stdin IH]; intros s; [reflexivity|].
  cbn [List.filter]. unfold asks_agent at 1.
  destruct (String.eqb_spec (strip line) "") as [Hblank|Hblank]; cbn [negb].
  - cbn [follow_up_loop]. rewrite Hblank, Hempty. cbn [String.eqb].
    rewrite IH. apply follow_up_loop_ignores_stdout; reflexivity.
  - cbn [follow_up_loop].
    destruct (is_quit_word (lower (strip line))); [reflexivity|].
    destruct (String.eqb_spec (strip line) ""); [contradiction|].
    destruct (session_run_agent llm_with_tools tool_map _) as [[s2 [u|e]]|]; try reflexivity.
    destruct (last_content (session_messages s2)); [apply IH|reflexivity].
Qed.

End BlankLines.

(** X14: lines that are blank once stripped never reach the model.  With
    a [lower] that does not turn the empty string into a quit word, a session
    ends with the same conversation, world, number of model invocations and
    result as the session fed the same lines without the blank ones. *)
Theorem blank_lines_do_not_reach_the_agent {Args World : Type}
  (llm_with_tools : Model Args World) (tool_map : gmap string (Tool Args World))
  (strip lower : string -> string) (stdin : list string) (s : Session Args World) :
  is_quit_word (lower "") = false ->
  outcome_core (follow_up_loop llm_with_tools tool_map strip lower stdin s)
  = outcome_core (follow_up_loop llm_with_tools tool_map strip lower
                    (List.filter (asks_agent strip) stdin) s) /\
  (Forall (fun line => strip line = "") stdin ->
   outcome_core (follow_up_loop llm_with_tools tool_map strip lower stdin s)
   = Some (session_messages s, session_world s, session_llm_calls s, Raise "EOFError")).
Proof.
  intros Hempty.
  pose proof (follow_up_loop_skips_blank_lines llm_with_tools tool_map strip lower stdin s
                Hempty) as Hskip.
  split; [exact Hskip|].
  intros Hall. rewrite Hskip.
  assert (Hnil : List.filter (asks_agent strip) stdin = []).
  { clear Hskip. induction Hall as [|line stdin Hline _ IH]; [reflexivity|].
    simpl. unfold asks_agent at 1. rewrite Hline. simpl. exact IH. }
  rewrite Hnil. reflexivity.
Qed.

Lemma blank_lines_do_not_reach_the_agent_witness :
  outcome_core
    (follow_up_loop (stub_model [stub_call "get_air_quality" "call_1"]) stub_tool_map
       stub_strip stub_lower [""; "What about Rome?"; ""; "quit"]
       (mkSession stub_messages [] tt O))
  = outcome_core
      (follow_up_loop (stub_model [stub_call "get_air_quality" "call_1"]) stub_tool_map
         stub_strip stub_lower ["What about Rome?"; "quit"]
         (mkSession stub_messages [] tt O)).
Proof.
  destruct (blank_lines_do_not_reach_the_agent
              (stub_model [stub_call "get_air_quality" "call_1"]) stub_tool_map
              stub_strip stub_lower [""; "What about Rome?"; ""; "quit"]
              (mkSession stub_messages [] tt O) eq_refl) as [Hskip _].
  exact Hskip.
Defined.
